(** * deHATEr: age-gated hate-speech filter

    A shallow embedding of [age_policy.py] and of the device handling and
    decision logic of [predict.py], with the properties of the written
    specification stated and proved over it.

    Conventions.
    - Python [int] is [Z]; Python [float] is the kernel's binary64 [float],
      so [score >= threshold] is the IEEE comparison the interpreter runs.
    - Python [str] is [string]; only ASCII text is modelled.
    - A call either returns or raises: [outcome].  State that a method
      mutates before it raises stays mutated. *)

From Stdlib Require Import ZArith List String Ascii Bool Lia Relations Sorted.
From Stdlib Require Import PrimFloat SpecFloat FloatOps FloatAxioms.
Import ListNotations.

Set Warnings "-inexact-float".

Local Open Scope string_scope.
Local Open Scope Z_scope.

(** ** Exceptions and results *)

Inductive exn : Type :=
| RuntimeError (msg : string)
| ValueError (msg : string)
| TypeError
| OverflowError
| IndexError
| FileNotFoundError
| OtherError (name : string).

Inductive outcome (A : Type) : Type :=
| Returned (a : A)
| Raised (e : exn).

Arguments Returned {A} a.
Arguments Raised {A} e.

(** ** Strings: the parts of [str] the program uses *)

Module PyStr.

Definition is_upper (c : ascii) : bool :=
  let n := nat_of_ascii c in (Nat.leb 65 n && Nat.leb n 90)%bool.

Definition lower_char (c : ascii) : ascii :=
  if is_upper c then ascii_of_nat (nat_of_ascii c + 32) else c.

(** [s.lower()] *)
Fixpoint lower (s : string) : string :=
  match s with
  | EmptyString => EmptyString
  | String c r => String (lower_char c) (lower r)
  end.

(** [sub in s] *)
Fixpoint contains (sub s : string) : bool :=
  (prefix sub s ||
   match s with
   | EmptyString => false
   | String _ r => contains sub r
   end)%bool.

(** [s in {t1, t2, ...}] *)
Definition mem (s : string) (set : list string) : bool :=
  existsb (String.eqb s) set.

(** [any(token in message for token in tokens)] *)
Definition any_in (tokens : list string) (message : string) : bool :=
  existsb (fun token => contains token message) tokens.

(** Characters [str.strip()] removes, within ASCII. *)
Definition is_space (c : ascii) : bool :=
  let n := nat_of_ascii c in
  ((Nat.leb 9 n && Nat.leb n 13) || (Nat.leb 28 n && Nat.leb n 32))%bool.

Fixpoint lstrip (s : string) : string :=
  match s with
  | EmptyString => EmptyString
  | String c r => if is_space c then lstrip r else s
  end.

Fixpoint rev_onto (s acc : string) : string :=
  match s with
  | EmptyString => acc
  | String c r => rev_onto r (String c acc)
  end.

Definition rev (s : string) : string := rev_onto s EmptyString.

Definition strip (s : string) : string := rev (lstrip (rev (lstrip s))).

Definition digit_of (c : ascii) : option Z :=
  let n := nat_of_ascii c in
  if (Nat.leb 48 n && Nat.leb n 57)%bool then Some (Z.of_nat n - 48) else None.

(** Characters [int(str)] skips around the number, within ASCII: tab,
    line feed, vertical tab, form feed, carriage return and space.  The
    separators 28..31, which [str.strip()] removes, are not among them. *)
Definition is_int_space (c : ascii) : bool :=
  let n := nat_of_ascii c in
  ((Nat.leb 9 n && Nat.leb n 13) || Nat.eqb n 32)%bool.

Fixpoint all_int_space (s : string) : bool :=
  match s with
  | EmptyString => true
  | String c r => (is_int_space c && all_int_space r)%bool
  end.

Fixpoint skip_int_space (s : string) : string :=
  match s with
  | EmptyString => EmptyString
  | String c r => if is_int_space c then skip_int_space r else s
  end.

(** Decimal digits with single underscores between digits, as the
    integer literal grammar of [int(str)] has them, then whitespace up
    to the end of the string. *)
Fixpoint digits (acc : Z) (after_digit : bool) (s : string) : option Z :=
  match s with
  | EmptyString => if after_digit then Some acc else None
  | String c r =>
      match digit_of c with
      | Some d => digits (10 * acc + d) true r
      | None =>
          if (Ascii.eqb c "_" && after_digit)%bool then digits acc false r
          else if (is_int_space c && after_digit && all_int_space r)%bool
               then Some acc
               else None
      end
  end.

(** [int(s)] in base ten, in the order the interpreter reads: leading
    whitespace, an optional sign, digits, trailing whitespace, end of
    string.  [None] stands for [ValueError].  The interpreter's
    configurable cap on the number of digits is not modelled. *)
Definition parse_int (s : string) : option Z :=
  match skip_int_space s with
  | String "+" r => digits 0 false r
  | String "-" r => option_map Z.opp (digits 0 false r)
  | t => digits 0 false t
  end.

End PyStr.

(** ** age_policy.py *)

(** [@dataclass(frozen=True) class AgePolicy] *)
Record AgePolicy : Type := mkAgePolicy {
  max_age : Z;
  threshold : float;
  allow_unblock : bool
}.

Definition _DEFAULT_POLICIES : list AgePolicy :=
  [ mkAgePolicy 12 0.25%float false;
    mkAgePolicy 17 0.35%float true;
    mkAgePolicy 200 0.55%float true ].

(** What a caller can pass as [age]: the annotation says [Optional[int]],
    the body coerces with [int(age)], so every kind of value the coercion
    distinguishes is kept apart. *)
Inductive pyage : Type :=
| AgeNone
| AgeInt (z : Z)
| AgeBool (b : bool)
| AgeFloat (f : float)
| AgeStr (s : string)
| AgeObject.   (* a value without integer conversion: list, dict, ... *)

(** [int(f)] for a float: truncation toward zero; NaN is a [ValueError],
    an infinity an [OverflowError]. *)
Definition int_of_float (f : float) : outcome Z :=
  match Prim2SF f with
  | S754_zero _ => Returned 0
  | S754_finite s m e =>
      let magnitude := Z.shiftl (Zpos m) e in
      Returned (if s then - magnitude else magnitude)
  | S754_nan => Raised (ValueError "cannot convert float NaN to integer")
  | S754_infinity _ => Raised OverflowError
  end.

(** [int(age)] *)
Definition py_int (age : pyage) : outcome Z :=
  match age with
  | AgeNone => Raised TypeError
  | AgeInt z => Returned z
  | AgeBool b => Returned (if b then 1 else 0)
  | AgeFloat f => int_of_float f
  | AgeStr s =>
      match PyStr.parse_int s with
      | Some z => Returned z
      | None => Raised (ValueError "invalid literal for int() with base 10")
      end
  | AgeObject => Raised TypeError
  end.

Module AgePolicyResolver.

(** [__init__]: [self._policies = policies or _DEFAULT_POLICIES].  An
    empty tuple is falsy, like [None]. *)
Definition __init__ (policies : option (list AgePolicy)) : list AgePolicy :=
  match policies with
  | None => _DEFAULT_POLICIES
  | Some [] => _DEFAULT_POLICIES
  | Some (p :: ps) => p :: ps
  end.

(** [self._policies[0]] *)
Definition first (policies : list AgePolicy) : outcome AgePolicy :=
  match policies with
  | [] => Raised IndexError
  | p :: _ => Returned p
  end.

(** [self._policies[-1]] *)
Fixpoint final (policies : list AgePolicy) : outcome AgePolicy :=
  match policies with
  | [] => Raised IndexError
  | [p] => Returned p
  | _ :: ps => final ps
  end.

(** The [for policy in self._policies] loop: [Some] is the [return]
    inside the loop, [None] is falling out of it. *)
Fixpoint scan (integer_age : Z) (policies : list AgePolicy) : option AgePolicy :=
  match policies with
  | [] => None
  | policy :: rest =>
      if integer_age <=? max_age policy then Some policy
      else scan integer_age rest
  end.

(** [resolve(self, age)] on the table held in [self._policies]. *)
Definition resolve (policies : list AgePolicy) (age : pyage) : outcome AgePolicy :=
  match age with
  | AgeNone => first policies
  | _ =>
      match py_int age with
      | Raised TypeError => first policies
      | Raised (ValueError _) => first policies
      | Raised e => Raised e
      | Returned integer_age =>
          if integer_age <? 0 then first policies
          else
            match scan integer_age policies with
            | Some policy => Returned policy
            | None => final policies
            end
      end
  end.

End AgePolicyResolver.

(** [_resolver = AgePolicyResolver()] *)
Definition _resolver : list AgePolicy := AgePolicyResolver.__init__ None.

Definition resolve_policy (age : pyage) : outcome AgePolicy :=
  AgePolicyResolver.resolve _resolver age.

(** ** predict.py: choosing a device *)

(** The four strings [_select_device] can return and [self.device] can hold. *)
Inductive device_name : Type := cpu | cuda | mps | dml.

Definition device_eqb (a b : device_name) : bool :=
  match a, b with
  | cpu, cpu | cuda, cuda | mps, mps | dml, dml => true
  | _, _ => false
  end.

(** What the machine answers to the queries of [_select_device]. *)
Record host : Type := mkHost {
  cuda_is_available : bool;        (* torch.cuda.is_available() *)
  cuda_probe : outcome unit;       (* torch.zeros(1).to("cuda") *)
  mps_backend : bool;              (* getattr(torch.backends, "mps", None) is truthy *)
  mps_is_available : bool;         (* torch.backends.mps.is_available() *)
  mps_probe : outcome unit;        (* torch.zeros(1).to("mps") *)
  directml_imported : bool;        (* torch_directml is not None *)
  directml_device : outcome unit   (* torch_directml.device() *)
}.

(** [_has_directml()]; [except Exception] catches every failure. *)
Definition _has_directml (h : host) : bool :=
  if directml_imported h then
    match directml_device h with
    | Returned _ => true
    | Raised _ => false
    end
  else false.

(** A result together with the lines printed on the way. *)
Definition printing (A : Type) : Type := (outcome A * list string)%type.

Definition msg_cuda_failed : string :=
  "[device] CUDA reported available but failed; using CPU instead.".
Definition msg_cuda_unavailable : string :=
  "[device] CUDA requested but not available; using CPU instead.".
Definition msg_mps_failed : string :=
  "[device] MPS backend failed; falling back to CPU.".
Definition msg_mps_failed_auto : string :=
  "[device] MPS backend failed to initialise; falling back to CPU.".

(** The [try: torch.zeros(1).to(d); return d / except RuntimeError: print(m)]
    block; [on_failure] is what follows the [print]. *)
Definition probe_or (probe : outcome unit) (d : device_name) (m : string)
    (on_failure : printing device_name) : printing device_name :=
  match probe with
  | Returned _ => (Returned d, [])
  | Raised (RuntimeError _) =>
      let (r, printed) := on_failure in (r, m :: printed)
  | Raised e => (Raised e, [])
  end.

(** The auto-detect part, from the MPS test on. *)
Definition auto_after_cuda (h : host) : printing device_name :=
  let rest : printing device_name :=
    (Returned (if _has_directml h then dml else cpu), []) in
  if (mps_backend h && mps_is_available h)%bool then
    probe_or (mps_probe h) mps msg_mps_failed_auto rest
  else rest.

Definition auto_detect (h : host) : printing device_name :=
  if cuda_is_available h then
    probe_or (cuda_probe h) cuda msg_cuda_failed (auto_after_cuda h)
  else auto_after_cuda h.

(** [_select_device(explicit)] *)
Definition _select_device (h : host) (explicit : option string)
    : printing device_name :=
  match explicit with
  | None | Some EmptyString => auto_detect h
  | Some explicit =>
      let choice := PyStr.lower explicit in
      if PyStr.mem choice ["cuda"; "gpu"] then
        if cuda_is_available h then
          probe_or (cuda_probe h) cuda msg_cuda_failed (Returned cpu, [])
        else (Returned cpu, [msg_cuda_unavailable])
      else if String.eqb choice "mps" then
        if (mps_backend h && mps_is_available h)%bool then
          probe_or (mps_probe h) mps msg_mps_failed (Returned cpu, [])
        else
          (Raised (RuntimeError "MPS requested but not available on this system."), [])
      else if PyStr.mem choice ["dml"; "directml"] then
        if _has_directml h then (Returned dml, [])
        else
          (Raised (RuntimeError
                     "DirectML requested but torch-directml is not installed."), [])
      else if String.eqb choice "cpu" then (Returned cpu, [])
      else (Raised (ValueError ("Unsupported device override '" ++ explicit ++ "'.")), [])
  end.

(** ** predict.py: the sequence length *)

(** An attribute read with [getattr]: absent, an [int], or something else. *)
Inductive attribute : Type :=
| Missing
| IntAttr (z : Z)
| NotIntAttr.

(** [max_len] after the tokenizer test: [getattr(tokenizer,
    "model_max_length", 512)], replaced by 512 unless it is an [int] in
    1..4096. *)
Definition tokenizer_max_len (model_max_length : attribute) : Z :=
  match model_max_length with
  | Missing => 512
  | IntAttr max_len =>
      if ((max_len <=? 0) || (4096 <? max_len))%bool then 512 else max_len
  | NotIntAttr => 512
  end.

(** The value stored in [self.max_length]. *)
Definition effective_max_length (model_max_length max_position_embeddings : attribute)
    : Z :=
  let max_len := tokenizer_max_len model_max_length in
  let max_len :=
    match max_position_embeddings with
    | IntAttr config_max_positions =>
        if 2 <? config_max_positions
        then Z.min max_len (config_max_positions - 2)
        else max_len
    | _ => max_len
    end in
  Z.max max_len 8.

(** ** predict.py: the engine *)

(** Context managers entered around a forward pass. *)
Inductive context : Type :=
| no_grad                 (* torch.no_grad() *)
| autocast_cuda_float16   (* torch.autocast(device_type="cuda", dtype=torch.float16) *)
| nullcontext.            (* contextlib.nullcontext() *)

(** What the engine asks of the outside, in the order it asks. *)
Inductive event : Type :=
| Print (line : string)
| Tokenize (text : string) (max_length : Z)
| TensorsTo (target : device_name)
| ModelTo (target : device_name)
| Forward (on : device_name) (contexts : list context).

(** The history of a run, newest event first. *)
Definition history : Type := list event.

(** The tokenizer, the model and torch, as far as the engine sees them.
    Each answer may depend on everything that happened before, so a call
    that failed once may succeed when repeated. *)
Record runtime : Type := mkRuntime {
  tokenizer_call : history -> string -> Z -> outcome unit;
  tensors_to : history -> device_name -> outcome unit;
  model_to : history -> device_name -> outcome unit;
  model_call : history -> device_name -> list context -> outcome (list float);
  positive_probability : list float -> float
    (* float(softmax(logits, dim=-1)[:, 1].item()) *)
}.

(** The fields of a [TransformerAgeAwareClassifier] that the methods
    read and write after the loading phase. *)
Record engine : Type := mkEngine {
  max_length : Z;
  device : device_name;
  _dml_device : bool   (* True when a DirectML handle is stored, False for None *)
}.

Record world : Type := mkWorld {
  self : engine;
  past : history
}.

(** Computations that read and write the engine, talk to the runtime,
    and may raise. *)
Definition M (A : Type) : Type := world -> outcome A * world.

Definition ret {A} (a : A) : M A := fun w => (Returned a, w).

Definition bind {A B} (m : M A) (k : A -> M B) : M B :=
  fun w =>
    match m w with
    | (Returned a, w') => k a w'
    | (Raised e, w') => (Raised e, w')
    end.

Definition raise {A} (e : exn) : M A := fun w => (Raised e, w).

(** [try: body / except RuntimeError as exc: handler(str(exc))]; any
    other exception passes through. *)
Definition try_except_RuntimeError {A} (body : M A) (handler : string -> M A) : M A :=
  fun w =>
    match body w with
    | (Raised (RuntimeError msg), w') => handler msg w'
    | r => r
    end.

Declare Scope engine_scope.
Delimit Scope engine_scope with engine.
Notation "x <- m ;; k" := (bind m (fun x => k))
  (at level 61, m at next level, right associativity) : engine_scope.
Notation "m ;; k" := (bind m (fun _ => k))
  (at level 61, right associativity) : engine_scope.
Local Open Scope engine_scope.

Definition get_device : M device_name := fun w => (Returned (device (self w)), w).

Definition set_device (d : device_name) : M unit :=
  fun w =>
    (Returned tt,
     mkWorld (mkEngine (max_length (self w)) d (_dml_device (self w))) (past w)).

Definition set_dml_device (handle : bool) : M unit :=
  fun w =>
    (Returned tt,
     mkWorld (mkEngine (max_length (self w)) (device (self w)) handle) (past w)).

Definition emit (ev : event) : M unit :=
  fun w => (Returned tt, mkWorld (self w) (ev :: past w)).

Definition print (line : string) : M unit := emit (Print line).

(** An outside call: the runtime answers from the history so far, and
    the call joins the history whether it returned or raised. *)
Definition ask {A} (answer : history -> outcome A) (ev : event) : M A :=
  fun w => (answer (past w), mkWorld (self w) (ev :: past w)).

Definition lift {A} (r : outcome A) : M A := fun w => (r, w).

(** The three tests of the [except RuntimeError] handlers, on the
    lower-cased message. *)
Definition is_hip (message : string) : bool :=
  (PyStr.contains "hip error" message
   || PyStr.contains "invalid device function" message)%bool.

Definition is_cuda_family (d : device_name) (message : string) : bool :=
  (device_eqb d cuda && PyStr.any_in ["cuda"; "cublas"; "cudnn"] message)%bool.

Definition is_directml (d : device_name) (message : string) : bool :=
  (device_eqb d dml && PyStr.contains "directml" message)%bool.

(** A failure the handlers recover from, given the device at the time. *)
Definition recognized (d : device_name) (msg : string) : bool :=
  let message := PyStr.lower msg in
  (is_hip message || is_cuda_family d message || is_directml d message)%bool.

Section Engine.

Variable rt : runtime.

Definition tokenize (text : string) : M unit :=
  fun w =>
    ask (fun h => tokenizer_call rt h text (max_length (self w)))
        (Tokenize text (max_length (self w))) w.

Definition move_tensors (d : device_name) : M unit :=
  ask (fun h => tensors_to rt h d) (TensorsTo d).

Definition move_model (d : device_name) : M unit :=
  ask (fun h => model_to rt h d) (ModelTo d).

(** The forward pass, [self.model] applied to the encoded tensors,
    with the given context managers open, innermost first. *)
Definition forward (contexts : list context) : M (list float) :=
  fun w =>
    ask (fun h => model_call rt h (device (self w)) contexts)
        (Forward (device (self w)) contexts) w.

(** The inner function of [_score_text]. *)
Definition _autocast_context (d : device_name) : context :=
  match d with
  | cuda => autocast_cuda_float16
  | _ => nullcontext
  end.

(** The body shared by the three recovering branches of [_score_text];
    [clear_dml] is the extra [self._dml_device = None] of the DirectML
    branch.  [outer] are the context managers still open. *)
Definition switch_and_retry (line : string) (clear_dml : bool)
    (outer : list context) : M (list float) :=
  print line ;;
  set_device cpu ;;
  (if clear_dml then set_dml_device false else ret tt) ;;
  d <- get_device ;;
  move_model d ;;
  move_tensors d ;;
  forward (_autocast_context d :: outer).

(** [_score_text(self, text)] *)
Definition _score_text (text : string) : M float :=
  tokenize text ;;
  d <- get_device ;;
  move_tensors d ;;
  let outer := [_autocast_context d; no_grad] in
  logits <-
    try_except_RuntimeError (forward outer)
      (fun msg =>
         let message := PyStr.lower msg in
         d <- get_device ;;
         if is_hip message then
           switch_and_retry
             "[device] Runtime HIP failure during inference; switching to CPU."
             false outer
         else if is_cuda_family d message then
           switch_and_retry
             "[device] CUDA runtime failure; switching to CPU." false outer
         else if is_directml d message then
           switch_and_retry
             "[device] DirectML execution failed; switching to CPU." true outer
         else raise (RuntimeError msg)) ;;
  ret (positive_probability rt logits).

(** What loading the checkpoint directory yields. *)
Record checkpoint : Type := mkCheckpoint {
  path_exists : bool;                  (* self.model_path.exists() *)
  fast_tokenizer : outcome attribute;  (* AutoTokenizer.from_pretrained(name), its model_max_length *)
  slow_tokenizer : outcome attribute;  (* the same with use_fast=False *)
  model_load : outcome attribute       (* the model, its config.max_position_embeddings *)
}.

(** [_load_tokenizer]: the slow tokenizer when the fast one fails in
    any way.  The printed line ends with the model name and the error,
    which are left out. *)
Definition _load_tokenizer (ckpt : checkpoint) : printing attribute :=
  match fast_tokenizer ckpt with
  | Returned a => (Returned a, [])
  | Raised _ =>
      (slow_tokenizer ckpt, ["[tokenizer] Falling back to slow tokenizer"])
  end.

(** The [try] block of [__init__]: put the model on the selected
    device.  Setting [cudnn.benchmark] on "cuda" touches no field of the
    engine and is left out. *)
Definition place_on_selected (h : host) : M unit :=
  d <- get_device ;;
  if device_eqb d dml then
    (if directml_imported h then ret tt
     else raise (RuntimeError
            "DirectML device requested but torch-directml is not installed.")) ;;
    lift (directml_device h) ;;
    set_dml_device true ;;
    move_model dml
  else move_model d.

(** The [except RuntimeError] handler of [__init__]. *)
Definition place_on_cpu_if_recognized (msg : string) : M unit :=
  let message := PyStr.lower msg in
  d <- get_device ;;
  if is_hip message then
    print "[device] Accelerator failed with HIP error; retrying on CPU." ;;
    set_device cpu ;;
    d' <- get_device ;;
    move_model d'
  else if is_cuda_family d message then
    print "[device] CUDA initialisation failed; retrying on CPU." ;;
    set_device cpu ;;
    d' <- get_device ;;
    move_model d'
  else if is_directml d message then
    print "[device] DirectML initialisation failed; retrying on CPU." ;;
    set_device cpu ;;
    set_dml_device false ;;
    d' <- get_device ;;
    move_model d'
  else raise (RuntimeError msg).

Definition place_model (h : host) : M unit :=
  try_except_RuntimeError (place_on_selected h) place_on_cpu_if_recognized.

(** [__init__(self, model_path, device)]: the engine when construction
    succeeds, and the history in both cases. *)
Definition __init__ (ckpt : checkpoint) (h : host) (device_arg : option string)
    : outcome engine * history :=
  if negb (path_exists ckpt) then (Raised FileNotFoundError, [])
  else
    let (tok, printed) := _load_tokenizer ckpt in
    let loading := List.rev (List.map Print printed) in
    match tok with
    | Raised e => (Raised e, loading)
    | Returned model_max_length =>
        match model_load ckpt with
        | Raised e => (Raised e, loading)
        | Returned max_position_embeddings =>
            let max_length :=
              effective_max_length model_max_length max_position_embeddings in
            let (selected, printed) := _select_device h device_arg in
            let selecting := (List.rev (List.map Print printed) ++ loading)%list in
            match selected with
            | Raised e => (Raised e, selecting)
            | Returned d =>
                match place_model h (mkWorld (mkEngine max_length d false) selecting) with
                | (Returned _, w) => (Returned (self w), past w)
                | (Raised e, w) => (Raised e, past w)
                end
            end
        end
    end.

(** The dictionary [classify] returns. *)
Record classification : Type := mkClassification {
  score : float;
  should_block : bool;
  age_policy : AgePolicy   (* asdict(policy) *)
}.

(** [classify(self, text, age)] *)
Definition classify (text : string) (age : pyage) : M classification :=
  score <- _score_text text ;;
  policy <- lift (resolve_policy age) ;;
  let should_block := (threshold policy <=? score)%float in
  ret (mkClassification score should_block policy).

End Engine.

(** ** Vocabulary of the properties *)




(** Inputs for which the specification asks for the fail-safe answer. *)
Definition non_numeric (age : pyage) : bool :=
  match age with
  | AgeStr s =>
      match PyStr.parse_int s with
      | Some _ => false
      | None => true
      end
  | AgeObject => true
  | _ => false
  end.

Definition fail_safe_input (age : pyage) : Prop :=
  age = AgeNone \/ non_numeric age = true \/ exists z, age = AgeInt z /\ z < 0.

(** [p] is at least as strict as [q]: no higher age bound, no higher
    threshold. *)
Definition no_laxer (p q : AgePolicy) : Prop :=
  max_age p <= max_age q /\ (threshold p <=? threshold q)%float = true.

(** The order the data model asks of a policy table. *)
Definition ascending (policies : list AgePolicy) : Prop :=
  StronglySorted no_laxer policies.

(** The MPS capability test of [_select_device]. *)
Definition mps_usable (h : host) : bool := (mps_backend h && mps_is_available h)%bool.

(** A machine without MPS. *)
Definition mps_less_host : host :=
  mkHost false (Returned tt) false false (Returned tt) false (Returned tt).

(** A machine whose MPS backend works. *)
Definition working_mps_host : host :=
  mkHost false (Returned tt) true true (Returned tt) false (Returned tt).

(** A machine whose MPS backend reports itself available and then
    fails the allocation probe. *)
Definition flaky_mps_host : host :=
  mkHost false (Returned tt) true true
         (Raised (RuntimeError "MPS backend out of memory")) false (Returned tt).

(** A runtime on which every call succeeds and every text scores [p]. *)
Definition steady_runtime (p : float) : runtime :=
  mkRuntime (fun _ _ _ => Returned tt) (fun _ _ => Returned tt)
            (fun _ _ => Returned tt) (fun _ _ _ => Returned [])
            (fun _ => p).

(** An engine on the CPU with nothing behind it. *)
Definition fresh_cpu_world : world := mkWorld (mkEngine 512 cpu false) [].

(** The context managers of the [with] statement of [_score_text]. *)
Definition outer_contexts (d : device_name) : list context :=
  [_autocast_context d; no_grad].

(** The history at the first forward pass of a call whose tokenization
    and tensor move went through. *)
Definition before_forward (text : string) (w : world) : history :=
  TensorsTo (device (self w)) :: Tokenize text (max_length (self w)) :: past w.

(** [torch.autocast(device_type="cuda", ...)] casts the operations that
    run on CUDA and no others: a forward pass computes in half precision
    when such a context is open and the model sits on "cuda". *)
Definition reduced_precision (ev : event) : bool :=
  match ev with
  | Forward on contexts =>
      (device_eqb on cuda
       && existsb (fun c => match c with autocast_cuda_float16 => true | _ => false end)
                  contexts)%bool
  | _ => false
  end.

(** The result of [_score_text] from the logits of a forward pass. *)
Definition scored (rt : runtime) (r : outcome (list float)) : outcome float :=
  match r with
  | Returned logits => Returned (positive_probability rt logits)
  | Raised e => Raised e
  end.

(** The line a recovering branch prints, by the test that matched. *)
Definition recovery_line (d : device_name) (message : string) : string :=
  if is_hip message then
    "[device] Runtime HIP failure during inference; switching to CPU."
  else if is_cuda_family d message then
    "[device] CUDA runtime failure; switching to CPU."
  else "[device] DirectML execution failed; switching to CPU.".

(** Only the DirectML branch drops the stored handle. *)
Definition recovery_clears_dml (d : device_name) (message : string) : bool :=
  (negb (is_hip message) && negb (is_cuda_family d message))%bool.

(** A runtime whose model fails on "cuda" with a cuBLAS error and works
    on the CPU, scoring [p]. *)
Definition failing_cuda_runtime (p : float) : runtime :=
  mkRuntime (fun _ _ _ => Returned tt) (fun _ _ => Returned tt)
            (fun _ _ => Returned tt)
            (fun _ d _ =>
               match d with
               | cuda => Raised (RuntimeError "CUBLAS_STATUS_ALLOC_FAILED")
               | _ => Returned []
               end)
            (fun _ => p).

(** A runtime whose model rejects its input on every device. *)
Definition rejecting_runtime : runtime :=
  mkRuntime (fun _ _ _ => Returned tt) (fun _ _ => Returned tt)
            (fun _ _ => Returned tt)
            (fun _ _ _ => Raised (RuntimeError "size mismatch"))
            (fun _ => 0%float).

Definition fresh_cuda_world : world := mkWorld (mkEngine 512 cuda false) [].

(** One method call on a constructed engine. *)
Inductive call (rt : runtime) : world -> world -> Prop :=
| call_score_text (text : string) (w : world) :
    call rt w (snd (_score_text rt text w))
| call_classify (text : string) (age : pyage) (w : world) :
    call rt w (snd (classify rt text age w)).

(** Any number of calls, one after the other. *)
Definition calls (rt : runtime) : world -> world -> Prop :=
  clos_refl_trans_1n world (call rt).

(** The device either stays or becomes "cpu". *)
Definition toward_cpu (before after : device_name) : Prop :=
  after = before \/ after = cpu.

(** Putting the model on the device of [w] failed with a recognized
    signature. *)
Definition placement_failure (rt : runtime) (h : host) (w : world) : Prop :=
  exists msg w',
    place_on_selected rt h w = (Raised (RuntimeError msg), w') /\
    recognized (device (self w)) msg = true.

(** The forward pass failed on device [d] with a recognized signature. *)
Definition recognized_failure (rt : runtime) (d : device_name) : Prop :=
  exists h contexts msg,
    model_call rt h d contexts = Raised (RuntimeError msg) /\
    recognized d msg = true.

Ltac split_matches :=
  repeat match goal with
         | |- context [match ?x with _ => _ end] => destruct x eqn:?
         | |- context [if ?b then _ else _] => destruct b eqn:?
         end.

(** The device names [_select_device] accepts, after lower-casing. *)
Definition known_device_names : list string :=
  ["cuda"; "gpu"; "mps"; "dml"; "directml"; "cpu"].

(** Neither probe fails with anything but a [RuntimeError]. *)
Definition probes_fail_softly (h : host) : Prop :=
  (forall e, cuda_probe h = Raised e -> exists msg, e = RuntimeError msg) /\
  (forall e, mps_probe h = Raised e -> exists msg, e = RuntimeError msg).

(** A machine with a CUDA device that fails its probe and a working
    DirectML installation. *)
Definition flaky_cuda_directml_host : host :=
  mkHost true (Raised (RuntimeError "CUDA error: no kernel image")) false false
         (Returned tt) true (Returned tt).

(** A probe that returned. *)
Definition probe_passed (probe : outcome unit) : bool :=
  match probe with
  | Returned _ => true
  | Raised _ => false
  end.

(** The device the auto-detection should settle on: the first of
    "cuda", "mps", "dml" that passes its checks, else "cpu". *)
Definition best_device (h : host) : device_name :=
  if (cuda_is_available h && probe_passed (cuda_probe h))%bool then cuda
  else if (mps_usable h && probe_passed (mps_probe h))%bool then mps
  else if _has_directml h then dml
  else cpu.

(** What must have held for [_select_device] to hand out device [d]. *)
Definition device_checked (h : host) (d : device_name) : Prop :=
  match d with
  | cuda => cuda_is_available h = true /\ cuda_probe h = Returned tt
  | mps => mps_usable h = true /\ mps_probe h = Returned tt
  | dml => _has_directml h = true
  | cpu => True
  end.

(** Forward passes among some events. *)
Definition count_forward (events : list event) : nat :=
  List.length
    (List.filter (fun ev => match ev with Forward _ _ => true | _ => false end)
                 events).

(** An event that names a device names [d] or "cpu". *)
Definition targets_within (d : device_name) (ev : event) : Prop :=
  match ev with
  | TensorsTo t | ModelTo t | Forward t _ => t = d \/ t = cpu
  | _ => True
  end.

(** The DirectML handle is there whenever the device is "dml", which
    is what the tensor move of [_score_text] relies on. *)
Definition dml_handle_ready (e : engine) : Prop :=
  device e = dml -> _dml_device e = true.

(** A runtime whose tokenizer fails with a message that mentions CUDA. *)
Definition failing_tokenizer_runtime : runtime :=
  mkRuntime (fun _ _ _ => Raised (RuntimeError "CUDA error: device-side assert"))
            (fun _ _ => Returned tt) (fun _ _ => Returned tt)
            (fun _ _ _ => Returned []) (fun _ => 0%float).

(** A checkpoint directory that loads, with the usual attributes. *)
Definition plain_checkpoint : checkpoint :=
  mkCheckpoint true (Returned (IntAttr 512)) (Returned (IntAttr 512))
               (Returned (IntAttr 514)).

(** ** api_server.py *)

Module ApiServer.

(** The [text] validator of [PredictRequest]. *)
Definition _validate_text (value : string) : outcome string :=
  if (String.eqb value EmptyString || String.eqb (PyStr.strip value) EmptyString)%bool
  then Raised (ValueError "text must not be empty")
  else Returned value.

(** A request body after parsing: [text: str], [age: Optional[int]]. *)
Record PredictRequest : Type := mkPredictRequest {
  text : string;
  age : option Z
}.

(** [Field(None, ge=0, le=130)] *)
Definition age_in_bounds (age : option Z) : bool :=
  match age with
  | None => true
  | Some a => ((0 <=? a) && (a <=? 130))%bool
  end.

(** Building a [PredictRequest]: a failing field check, the validator's
    [ValueError] included, comes out as pydantic's [ValidationError]. *)
Definition validate (text : string) (age : option Z) : outcome PredictRequest :=
  match _validate_text text with
  | Raised _ => Raised (OtherError "ValidationError")
  | Returned value =>
      if age_in_bounds age then Returned (mkPredictRequest value age)
      else Raised (OtherError "ValidationError")
  end.

(** The [detail] of an [HTTPException]: a fixed text, or [str(exc)]. *)
Inductive detail : Type :=
| Text (s : string)
| StrOf (exc : exn).

(** What the [/predict] handler gives back to the framework. *)
Inductive reply : Type :=
| PredictResponse (body : classification)
| HTTPException (status_code : Z) (d : detail).

(** [request.age] as the argument [classify] receives. *)
Definition age_argument (age : option Z) : pyage :=
  match age with
  | None => AgeNone
  | Some a => AgeInt a
  end.

(** [predict(request)], with [app.state.classifier] as an optional
    engine: [None] before the model is loaded.  The engine is one shared
    object, so what [classify] did to it stays, also when it raised. *)
Definition predict (rt : runtime) (classifier : option world)
    (request : PredictRequest) : reply * option world :=
  match classifier with
  | None => (HTTPException 503 (Text "Model not ready"), None)
  | Some w =>
      match classify rt (text request) (age_argument (age request)) w with
      | (Returned result, w') => (PredictResponse result, Some w')
      | (Raised exc, w') => (HTTPException 500 (StrOf exc), Some w')
      end
  end.

(** [healthcheck()] *)
Definition healthcheck (classifier : option world) : string :=
  match classifier with
  | Some _ => "ready"
  | None => "loading"
  end.

End ApiServer.

(** Every character is one that [strip] removes. *)
Fixpoint all_space (s : string) : bool :=
  match s with
  | EmptyString => true
  | String c r => (PyStr.is_space c && all_space r)%bool
  end.

(** ** sample_predictions.py: the scoring loop of [main] *)

Module SamplePredictions.

(** The value under "expected" of a sample: absent or null, a boolean,
    a number, or anything else JSON can hold. *)
Inductive label : Type :=
| NoLabel
| BoolLabel (b : bool)
| IntLabel (z : Z)
| FloatLabel (f : float)
| OtherLabel.

(** [expected is not None] *)
Definition is_labelled (expected : label) : bool :=
  match expected with
  | NoLabel => false
  | _ => true
  end.

(** [expected == should_block]: a number equals a boolean when it is 1
    for [True] or 0 for [False]. *)
Definition label_eq (expected : label) (should_block : bool) : bool :=
  match expected with
  | NoLabel => false
  | BoolLabel b => Bool.eqb b should_block
  | IntLabel z => z =? (if should_block then 1 else 0)
  | FloatLabel f => (f =? (if should_block then 1 else 0))%float
  | OtherLabel => false
  end.

(** One entry of [sentences]. *)
Record sample : Type := mkSample {
  text : string;
  expected : label
}.

(** One dictionary appended to [rows]. *)
Record row : Type := mkRow {
  row_index : Z;
  row_text : string;
  row_score : float;
  row_should_block : bool;
  row_threshold : float;
  row_age : Z;
  row_expected : label;
  row_correct : option bool
}.

(** The f-strings of [main], whose number formatting is not modelled. *)
Record wording : Type := mkWording {
  policy_line : AgePolicy -> string;
  sample_line : Z -> float -> bool -> label -> string -> string;
  accuracy_line : Z -> Z -> string
}.

(** The local variables the loop updates. *)
Record tally : Type := mkTally {
  rows : list row;
  correct : Z;
  total_with_labels : Z;
  log_lines : list string
}.

Section Scoring.

Variable rt : runtime.
Variable words : wording.
Variable logging : bool.   (* log_path is not None *)
Variable age : Z.          (* args.age *)

(** The inner function [emit] of [main]. *)
Definition emit_line (message : string) (t : tally) : M tally :=
  (print message ;;
   ret (mkTally (rows t) (correct t) (total_with_labels t)
                (if logging then (log_lines t ++ [message])%list else log_lines t)))%engine.

(** The body of the [for idx, sample in enumerate(sentences, start=1)]
    loop. *)
Definition score_sample (policy : AgePolicy) (idx : Z) (s : sample) (t : tally)
    : M tally :=
  (result <- classify rt (text s) (AgeInt age) ;;
   let score := score result in
   let should_block := should_block result in
   let is_correct := (is_labelled (expected s) && label_eq (expected s) should_block)%bool in
   let total := if is_labelled (expected s) then total_with_labels t + 1
                else total_with_labels t in
   let correct := if (is_labelled (expected s) && is_correct)%bool then correct t + 1
                  else correct t in
   t1 <- emit_line (sample_line words idx score should_block (expected s) (text s))
                   (mkTally (rows t) correct total (log_lines t)) ;;
   ret (mkTally
          (rows t1 ++
           [mkRow idx (text s) score should_block (threshold policy) age (expected s)
                  (if is_labelled (expected s) then Some is_correct else None)])%list
          (SamplePredictions.correct t1) (total_with_labels t1) (log_lines t1)))%engine.

Fixpoint score_samples (policy : AgePolicy) (idx : Z) (sentences : list sample)
    (t : tally) : M tally :=
  match sentences with
  | [] => ret t
  | s :: rest =>
      (t' <- score_sample policy idx s t ;;
       score_samples policy (idx + 1) rest t')%engine
  end.

(** [main] from [policy = resolve_policy(args.age)] to the accuracy
    line, for an engine already constructed. *)
Definition score_all (sentences : list sample) : M tally :=
  (policy <- lift (resolve_policy (AgeInt age)) ;;
   t0 <- emit_line (policy_line words policy) (mkTally [] 0 0 []) ;;
   t <- score_samples policy 1 sentences t0 ;;
   if total_with_labels t =? 0 then ret t
   else emit_line (accuracy_line words (correct t) (total_with_labels t)) t)%engine.

End Scoring.

End SamplePredictions.

(** The numbers [start], [start + 1], ... ([n] of them). *)
Fixpoint count_from (start : Z) (n : nat) : list Z :=
  match n with
  | O => []
  | S n' => start :: count_from (start + 1) n'
  end.

(** Samples that carry a label. *)
Definition count_labelled (sentences : list SamplePredictions.sample) : Z :=
  Z.of_nat (List.length
              (List.filter (fun s => SamplePredictions.is_labelled
                                       (SamplePredictions.expected s)) sentences)).

(** Rows marked correct. *)
Definition count_correct (rows : list SamplePredictions.row) : Z :=
  Z.of_nat (List.length
              (List.filter (fun r => match SamplePredictions.row_correct r with
                                     | Some true => true
                                     | _ => false
                                     end) rows)).

(** The columns of a row agree with each other and with the policy of
    the run. *)
Definition row_consistent (policy : AgePolicy) (age : Z) (r : SamplePredictions.row)
    : Prop :=
  SamplePredictions.row_threshold r = threshold policy /\
  SamplePredictions.row_age r = age /\
  SamplePredictions.row_should_block r
  = (SamplePredictions.row_threshold r <=? SamplePredictions.row_score r)%float /\
  SamplePredictions.row_correct r
  = if SamplePredictions.is_labelled (SamplePredictions.row_expected r)
    then Some (SamplePredictions.label_eq (SamplePredictions.row_expected r)
                 (SamplePredictions.row_should_block r))
    else None.

(** Wording that keeps the lines apart without formatting numbers. *)
Definition terse_wording : SamplePredictions.wording :=
  SamplePredictions.mkWording (fun _ => "policy") (fun _ _ _ _ t => t)
                              (fun _ _ => "accuracy").

Definition two_samples : list SamplePredictions.sample :=
  [SamplePredictions.mkSample "first" (SamplePredictions.BoolLabel true);
   SamplePredictions.mkSample "second" SamplePredictions.NoLabel].

(** What scoring [two_samples] at age 16 leaves behind on a runtime
    that scores every text 0.30. *)
Definition two_samples_tally : SamplePredictions.tally :=
  SamplePredictions.mkTally
    [SamplePredictions.mkRow 1 "first" 0.30%float false 0.35%float 16
       (SamplePredictions.BoolLabel true) (Some false);
     SamplePredictions.mkRow 2 "second" 0.30%float false 0.35%float 16
       SamplePredictions.NoLabel None]
    0 1 ["policy"; "first"; "second"; "accuracy"].

Definition two_samples_world : world :=
  mkWorld (mkEngine 512 cpu false)
    [Print "accuracy"; Print "second";
     Forward cpu [nullcontext; no_grad]; TensorsTo cpu; Tokenize "second" 512;
     Print "first";
     Forward cpu [nullcontext; no_grad]; TensorsTo cpu; Tokenize "first" 512;
     Print "policy"].

(** A runtime on which the model cannot be put on "cuda" but can be put
    anywhere else. *)
Definition unplaceable_cuda_runtime : runtime :=
  mkRuntime (fun _ _ _ => Returned tt) (fun _ _ => Returned tt)
            (fun _ d =>
               match d with
               | cuda => Raised (RuntimeError "CUDA error: out of memory")
               | _ => Returned tt
               end)
            (fun _ _ _ => Returned []) (fun _ => 0%float).

(** A machine with a working CUDA device and nothing else. *)
Definition cuda_host : host :=
  mkHost true (Returned tt) false false (Returned tt) false (Returned tt).

(** ** sample_predictions.py: reading the sentences *)

Module SampleInput.

(** The plain-text branch of [_read_sentences]; [lines] is what
    iterating over the open file yields. *)
Definition read_plain_lines (lines : list string) : list SamplePredictions.sample :=
  List.map
    (fun line => SamplePredictions.mkSample (PyStr.strip line) SamplePredictions.NoLabel)
    (List.filter (fun line => negb (String.eqb (PyStr.strip line) EmptyString)) lines).

(** An input file as [_read_sentences] sees it: the suffix of its path,
    what [_load_jsonl_sentences] makes of it, and its lines.  Failing to
    open the file is left out. *)
Record input_file : Type := mkInputFile {
  suffix : string;
  jsonl_sentences : outcome (list SamplePredictions.sample);
  file_lines : list string
}.

(** [_read_sentences(input_path)]; [default_sentences] is what
    [_load_default_sentences()] gives. *)
Definition _read_sentences
    (default_sentences : outcome (list SamplePredictions.sample))
    (input_path : option input_file) : outcome (list SamplePredictions.sample) :=
  match input_path with
  | None => default_sentences
  | Some f =>
      if PyStr.mem (PyStr.lower (suffix f)) [".jsonl"; ".json"]
      then jsonl_sentences f
      else Returned (read_plain_lines (file_lines f))
  end.

End SampleInput.

(** A text file with blank lines around two sentences. *)
Definition notes_file : SampleInput.input_file :=
  SampleInput.mkInputFile ".txt" (Raised (OtherError "SystemExit"))
    [String "010" EmptyString;
     "  first sentence " ++ String "010" EmptyString;
     "   " ++ String "010" EmptyString;
     "second"].

(** No whitespace at the front. *)
Definition starts_clean (s : string) : Prop :=
  match s with
  | EmptyString => True
  | String c _ => PyStr.is_space c = false
  end.

(** * Properties *)

(** ** The age policy resolver *)

Module ResolverFacts.
Import AgePolicyResolver.

Lemma final_snoc (before : list AgePolicy) (p : AgePolicy) :
  final (before ++ [p]) = Returned p.
Proof.
  induction before as [|q before IH]; [reflexivity|].
  change ((q :: before) ++ [p])%list with (q :: (before ++ [p]))%list.
  simpl final. rewrite IH.
  destruct (before ++ [p])%list eqn:E; [|reflexivity].
  destruct before; discriminate.
Qed.

Lemma final_nonempty (policies : list AgePolicy) :
  policies <> [] ->
  exists before p, policies = (before ++ [p])%list /\ final policies = Returned p.
Proof.
  intros Hne. destruct (exists_last Hne) as (before & p & ->).
  exists before, p. split; [reflexivity | apply final_snoc].
Qed.

(** The loop returns at the first bucket that reaches the age ... *)
Lemma scan_found (a : Z) (policies : list AgePolicy) (p : AgePolicy) :
  scan a policies = Some p ->
  exists before after,
    policies = (before ++ p :: after)%list /\
    Forall (fun q => max_age q < a) before /\
    a <= max_age p.
Proof.
  induction policies as [|q rest IH]; simpl; [discriminate|].
  destruct (a <=? max_age q) eqn:E.
  - intros [= <-]. exists [], rest. repeat split; [constructor | lia].
  - intros H. destruct (IH H) as (before & after & -> & Hb & Hp).
    exists (q :: before), after. repeat split; [|exact Hp].
    constructor; [lia | exact Hb].
Qed.

(** ... and falls through only when no bucket does. *)
Lemma scan_exhausted (a : Z) (policies : list AgePolicy) :
  scan a policies = None -> Forall (fun q => max_age q < a) policies.
Proof.
  induction policies as [|q rest IH]; simpl; [constructor|].
  destruct (a <=? max_age q) eqn:E; [discriminate|].
  intros H. constructor; [lia | exact (IH H)].
Qed.

Lemma py_int_not_IndexError (age : pyage) : py_int age <> Raised IndexError.
Proof.
  destruct age as [|z|b|f|s|]; simpl; try discriminate.
  - unfold int_of_float. destruct (Prim2SF f); discriminate.
  - destruct (PyStr.parse_int s); discriminate.
Qed.

Lemma resolve_int (policies : list AgePolicy) (z : Z) :
  resolve policies (AgeInt z) =
  if z <? 0 then first policies
  else match scan z policies with
       | Some policy => Returned policy
       | None => final policies
       end.
Proof. reflexivity. Qed.

End ResolverFacts.

(** C6: for an integer age [a >= 0] and a non-empty table, [resolve]
    returns the first policy in table order with [max_age >= a]; when no
    policy has [max_age >= a] it returns the last policy of the table. *)
Theorem resolve_first_bucket_or_last (policies : list AgePolicy) (a : Z) :
  0 <= a ->
  policies <> [] ->
  exists policy,
    AgePolicyResolver.resolve policies (AgeInt a) = Returned policy /\
    ((exists before after,
         policies = (before ++ policy :: after)%list /\
         Forall (fun q => max_age q < a) before /\
         a <= max_age policy)
     \/
     (Forall (fun q => max_age q < a) policies /\
      exists before, policies = (before ++ [policy])%list)).
Proof.
  intros Ha Hne. rewrite ResolverFacts.resolve_int.
  destruct (a <? 0) eqn:Hneg; [lia|].
  destruct (AgePolicyResolver.scan a policies) as [p|] eqn:Hscan.
  - exists p. split; [reflexivity|]. left.
    exact (ResolverFacts.scan_found _ _ _ Hscan).
  - destruct (ResolverFacts.final_nonempty _ Hne) as (before & p & Heq & Hfin).
    exists p. split; [exact Hfin|]. right. split.
    + exact (ResolverFacts.scan_exhausted _ _ Hscan).
    + exists before. exact Heq.
Qed.

Lemma resolve_first_bucket_or_last_witness :
  exists policy,
    AgePolicyResolver.resolve _DEFAULT_POLICIES (AgeInt 16) = Returned policy /\
    ((exists before after,
         _DEFAULT_POLICIES = (before ++ policy :: after)%list /\
         Forall (fun q => max_age q < 16) before /\
         16 <= max_age policy)
     \/
     (Forall (fun q => max_age q < 16) _DEFAULT_POLICIES /\
      exists before, _DEFAULT_POLICIES = (before ++ [policy])%list)).
Proof.
  apply (resolve_first_bucket_or_last _DEFAULT_POLICIES 16); [lia | discriminate].
Defined.

(** C7: for an age that is [None], non-numeric or a negative integer,
    [resolve] returns the first bucket of the table, which in a table
    kept in ascending order is the strictest one (lowest [max_age],
    lowest threshold); with the default table it is the policy
    (max_age=12, threshold=0.25, allow_unblock=False), not the catch-all. *)
Theorem resolve_fail_safe_strictest (age : pyage) :
  fail_safe_input age ->
  (forall policies, policies <> [] ->
     exists p rest,
       policies = p :: rest /\
       AgePolicyResolver.resolve policies age = Returned p /\
       (ascending policies -> Forall (no_laxer p) rest)) /\
  resolve_policy age = Returned (mkAgePolicy 12 0.25%float false) /\
  AgePolicyResolver.final _DEFAULT_POLICIES <> resolve_policy age.
Proof.
  intros Hin.
  assert (Hhead : forall p rest,
             AgePolicyResolver.resolve (p :: rest) age = Returned p).
  { intros p rest. destruct Hin as [-> | [Hnn | (z & -> & Hz)]].
    - reflexivity.
    - destruct age as [|z|b|f|s|]; try discriminate Hnn.
      + simpl in *. destruct (PyStr.parse_int s); [discriminate | reflexivity].
      + reflexivity.
    - rewrite ResolverFacts.resolve_int.
      destruct (z <? 0) eqn:E; [reflexivity | lia]. }
  split; [|split].
  - intros [|p rest] Hne; [contradiction|].
    exists p, rest. split; [reflexivity|]. split; [apply Hhead|].
    intros Hasc. inversion Hasc; assumption.
  - apply Hhead.
  - unfold resolve_policy, _resolver. simpl AgePolicyResolver.__init__.
    unfold _DEFAULT_POLICIES. rewrite Hhead. simpl. discriminate.
Qed.

(** The default table is in the order the data model asks for. *)
Lemma default_policies_ascending : ascending _DEFAULT_POLICIES.
Proof.
  unfold ascending, _DEFAULT_POLICIES.
  repeat (constructor; [|repeat constructor; simpl; try lia; reflexivity]).
  constructor.
Qed.

Lemma resolve_fail_safe_strictest_witness :
  (exists p rest,
     _DEFAULT_POLICIES = p :: rest /\
     AgePolicyResolver.resolve _DEFAULT_POLICIES (AgeStr "twelve") = Returned p /\
     Forall (no_laxer p) rest) /\
  resolve_policy (AgeStr "twelve") = Returned (mkAgePolicy 12 0.25%float false) /\
  AgePolicyResolver.final _DEFAULT_POLICIES <> resolve_policy (AgeStr "twelve").
Proof.
  destruct (resolve_fail_safe_strictest (AgeStr "twelve")) as (Htable & Hdefault).
  - right. left. vm_compute. reflexivity.
  - split; [|exact Hdefault].
    destruct (Htable _DEFAULT_POLICIES) as (p & rest & Heq & Hres & Hasc).
    + discriminate.
    + exists p, rest. split; [exact Heq|]. split; [exact Hres|].
      exact (Hasc default_policies_ascending).
Defined.

(** The three ranges of the default table. *)
Lemma resolve_policy_ranges (a : Z) :
  resolve_policy (AgeInt a) =
  Returned (if a <=? 12 then mkAgePolicy 12 0.25%float false
            else if a <=? 17 then mkAgePolicy 17 0.35%float true
            else mkAgePolicy 200 0.55%float true).
Proof.
  unfold resolve_policy, _resolver. simpl AgePolicyResolver.__init__.
  rewrite ResolverFacts.resolve_int. unfold _DEFAULT_POLICIES. simpl.
  destruct (a <? 0) eqn:E0; destruct (a <=? 12) eqn:E1;
    destruct (a <=? 17) eqn:E2; destruct (a <=? 200) eqn:E3;
    try reflexivity; lia.
Qed.

(** C8: with the default table the resolved threshold is monotone in
    the age, over all integers. *)
Theorem default_threshold_monotone (age1 age2 : Z) :
  age1 <= age2 ->
  exists p1 p2,
    resolve_policy (AgeInt age1) = Returned p1 /\
    resolve_policy (AgeInt age2) = Returned p2 /\
    (threshold p1 <=? threshold p2)%float = true.
Proof.
  intros Hle. rewrite !resolve_policy_ranges.
  do 2 eexists. split; [reflexivity|]. split; [reflexivity|].
  destruct (age1 <=? 12) eqn:A1; destruct (age1 <=? 17) eqn:A2;
    destruct (age2 <=? 12) eqn:B1; destruct (age2 <=? 17) eqn:B2;
    try reflexivity; lia.
Qed.

Lemma default_threshold_monotone_witness :
  exists p1 p2,
    resolve_policy (AgeInt 12) = Returned p1 /\
    resolve_policy (AgeInt 13) = Returned p2 /\
    (threshold p1 <=? threshold p2)%float = true.
Proof. apply (default_threshold_monotone 12 13). lia. Defined.

(** C9: an empty tuple given to the constructor is replaced by the
    default table, so the table of a constructed resolver is never empty
    and [resolve] never raises [IndexError]. *)
Theorem resolver_table_never_empty :
  AgePolicyResolver.__init__ (Some []) = _DEFAULT_POLICIES /\
  (forall policies, AgePolicyResolver.__init__ policies <> []) /\
  (forall policies age,
     AgePolicyResolver.resolve (AgePolicyResolver.__init__ policies) age
     <> Raised IndexError).
Proof.
  assert (Hne : forall policies, AgePolicyResolver.__init__ policies <> []).
  { intros [[|p ps]|]; discriminate. }
  split; [reflexivity|]. split; [exact Hne|].
  intros policies age. specialize (Hne policies).
  destruct (AgePolicyResolver.__init__ policies) as [|p ps] eqn:Et;
    [contradiction|].
  assert (Hfin : AgePolicyResolver.final (p :: ps) <> Raised IndexError).
  { destruct (ResolverFacts.final_nonempty (p :: ps)) as (b & q & _ & ->);
      discriminate. }
  unfold AgePolicyResolver.resolve.
  pose proof (ResolverFacts.py_int_not_IndexError age) as Hint.
  destruct age as [|z|b|f|s|]; try discriminate;
    destruct (py_int _) as [z'|[]] eqn:E; try discriminate;
    try (exfalso; apply Hint; reflexivity);
    destruct (z' <? 0); try discriminate;
    destruct (AgePolicyResolver.scan z' (p :: ps)); try discriminate;
    exact Hfin.
Qed.

Module CoercionFacts.









End CoercionFacts.



(** ** The sequence length *)

Lemma tokenizer_max_len_range (a : attribute) : 1 <= tokenizer_max_len a <= 4096.
Proof.
  destruct a as [|z|]; simpl; try lia.
  destruct (z <=? 0) eqn:E1; destruct (4096 <? z) eqn:E2; simpl; lia.
Qed.

(** C3 as written fails at the lower end of the interval: a tokenizer
    that reports 8, on a model with 514 positions, gets length 8, which
    is within the capacity minus 2 but is not above 8. *)
Lemma max_length_claim_fails :
  effective_max_length (IntAttr 8) (IntAttr 514) = 8 /\
  ~ (2 < 514 ->
     8 < effective_max_length (IntAttr 8) (IntAttr 514) <= 4096 /\
     effective_max_length (IntAttr 8) (IntAttr 514) <= 514 - 2).
Proof.
  split; [reflexivity|].
  intros H. specialize (H ltac:(lia)).
  vm_compute in H. destruct H as [[H _] _]. discriminate H.
Qed.

(** C3, amended: for every tokenizer default and every model whose
    positional-embedding capacity is at least 10, the effective maximum
    sequence length lies in [8, 4096] and does not exceed the capacity
    minus 2.  Nothing is said of capacities from 3 to 9. *)
Theorem max_length_bounds (model_max_length : attribute) (capacity : Z) :
  10 <= capacity ->
  8 <= effective_max_length model_max_length (IntAttr capacity) <= 4096 /\
  effective_max_length model_max_length (IntAttr capacity) <= capacity - 2.
Proof.
  intros Hc. pose proof (tokenizer_max_len_range model_max_length) as Hr.
  unfold effective_max_length. destruct (2 <? capacity) eqn:E; lia.
Qed.

Lemma max_length_bounds_witness :
  8 <= effective_max_length (IntAttr 1000000) (IntAttr 130) <= 4096 /\
  effective_max_length (IntAttr 1000000) (IntAttr 130) <= 130 - 2.
Proof. apply (max_length_bounds (IntAttr 1000000) 130). lia. Defined.

(** ** Device selection *)

(** C2 as written fails: with the backend available and the probe
    failing, an explicit "mps" request comes back as "cpu" with a
    printed warning, and nothing is raised. *)
Lemma explicit_mps_probe_failure_falls_back :
  _select_device flaky_mps_host (Some "mps") = (Returned cpu, [msg_mps_failed]).
Proof. reflexivity. Qed.

Lemma lower_mps_nonempty (explicit : string) :
  PyStr.lower explicit = "mps" -> explicit <> EmptyString.
Proof. intros H ->. discriminate H. Qed.

(** C2, amended: for an explicit "mps" request, an unavailable MPS
    backend is a hard error ([RuntimeError]); when the backend is
    available, a probe that fails with [RuntimeError] prints a warning
    and selects "cpu", any other probe failure is raised as it is, and a
    probe that passes selects "mps". *)
Theorem explicit_mps_selection (h : host) (explicit : string) :
  PyStr.lower explicit = "mps" ->
  (mps_usable h = false ->
     _select_device h (Some explicit)
     = (Raised (RuntimeError "MPS requested but not available on this system."), [])) /\
  (mps_usable h = true ->
     match mps_probe h with
     | Returned _ => _select_device h (Some explicit) = (Returned mps, [])
     | Raised (RuntimeError _) =>
         _select_device h (Some explicit) = (Returned cpu, [msg_mps_failed])
     | Raised e => _select_device h (Some explicit) = (Raised e, [])
     end).
Proof.
  intros Hl. pose proof (lower_mps_nonempty _ Hl) as Hne.
  assert (Hsel : _select_device h (Some explicit) =
                 if mps_usable h
                 then probe_or (mps_probe h) mps msg_mps_failed (Returned cpu, [])
                 else (Raised (RuntimeError
                         "MPS requested but not available on this system."), [])).
  { destruct explicit as [|c r]; [contradiction|].
    unfold _select_device. rewrite Hl. reflexivity. }
  rewrite Hsel. split; intros ->; [reflexivity|].
  unfold probe_or. destruct (mps_probe h) as [u|[]]; reflexivity.
Qed.

Lemma explicit_mps_selection_witness :
  _select_device mps_less_host (Some "MPS")
  = (Raised (RuntimeError "MPS requested but not available on this system."), []) /\
  _select_device flaky_mps_host (Some "MPS") = (Returned cpu, [msg_mps_failed]) /\
  _select_device working_mps_host (Some "Mps") = (Returned mps, []).
Proof.
  split; [|split].
  - apply (proj1 (explicit_mps_selection mps_less_host "MPS" eq_refl)). reflexivity.
  - apply (proj2 (explicit_mps_selection flaky_mps_host "MPS" eq_refl)). reflexivity.
  - apply (proj2 (explicit_mps_selection working_mps_host "Mps" eq_refl)). reflexivity.
Defined.

(** ** The decision *)

Lemma classify_unfold (rt : runtime) (text : string) (age : pyage) (w : world) :
  classify rt text age w =
  match _score_text rt text w with
  | (Returned s, w') =>
      match resolve_policy age with
      | Returned policy =>
          (Returned (mkClassification s (threshold policy <=? s)%float policy), w')
      | Raised e => (Raised e, w')
      end
  | (Raised e, w') => (Raised e, w')
  end.
Proof.
  unfold classify, bind, lift, ret.
  destruct (_score_text rt text w) as [[s|e] w']; [|reflexivity].
  destruct (resolve_policy age); reflexivity.
Qed.

(** C1: whenever [classify] returns, its record carries the score of
    [_score_text], the policy resolved for the age, and
    [should_block = (score >= threshold)]; it raises only what
    [_score_text] or the resolver raised.  With the default table:
    age 10 and score 0.30 block, age 16 and score 0.30 do not, age 40
    and score 0.60 block. *)
Theorem classify_should_block (rt : runtime) :
  (forall text age w,
     match classify rt text age w with
     | (Returned r, w') =>
         _score_text rt text w = (Returned (score r), w') /\
         resolve_policy age = Returned (age_policy r) /\
         should_block r = (threshold (age_policy r) <=? score r)%float
     | (Raised e, w') =>
         _score_text rt text w = (Raised e, w') \/
         (exists s, _score_text rt text w = (Returned s, w')) /\
         resolve_policy age = Raised e
     end) /\
  (forall text w w',
     _score_text rt text w = (Returned 0.30%float, w') ->
     classify rt text (AgeInt 10) w
     = (Returned (mkClassification 0.30%float true
                    (mkAgePolicy 12 0.25%float false)), w')) /\
  (forall text w w',
     _score_text rt text w = (Returned 0.30%float, w') ->
     classify rt text (AgeInt 16) w
     = (Returned (mkClassification 0.30%float false
                    (mkAgePolicy 17 0.35%float true)), w')) /\
  (forall text w w',
     _score_text rt text w = (Returned 0.60%float, w') ->
     classify rt text (AgeInt 40) w
     = (Returned (mkClassification 0.60%float true
                    (mkAgePolicy 200 0.55%float true)), w')).
Proof.
  split; [|repeat split; intros text w w' Hs;
            rewrite classify_unfold, Hs; reflexivity].
  intros text age w. rewrite classify_unfold.
  destruct (_score_text rt text w) as [[s|e] w']; [|left; reflexivity].
  destruct (resolve_policy age) as [policy|e] eqn:Hp.
  - simpl. repeat split; reflexivity.
  - right. split; [exists s|]; reflexivity.
Qed.

Lemma classify_should_block_witness :
  classify (steady_runtime 0.30%float) "some text" (AgeInt 10) fresh_cpu_world
  = (Returned (mkClassification 0.30%float true (mkAgePolicy 12 0.25%float false)),
     snd (_score_text (steady_runtime 0.30%float) "some text" fresh_cpu_world)) /\
  classify (steady_runtime 0.30%float) "some text" (AgeInt 16) fresh_cpu_world
  = (Returned (mkClassification 0.30%float false (mkAgePolicy 17 0.35%float true)),
     snd (_score_text (steady_runtime 0.30%float) "some text" fresh_cpu_world)) /\
  classify (steady_runtime 0.60%float) "some text" (AgeInt 40) fresh_cpu_world
  = (Returned (mkClassification 0.60%float true (mkAgePolicy 200 0.55%float true)),
     snd (_score_text (steady_runtime 0.60%float) "some text" fresh_cpu_world)).
Proof.
  split; [|split].
  - apply (proj1 (proj2 (classify_should_block (steady_runtime 0.30%float)))).
    reflexivity.
  - apply (proj1 (proj2 (proj2 (classify_should_block (steady_runtime 0.30%float))))).
    reflexivity.
  - apply (proj2 (proj2 (proj2 (classify_should_block (steady_runtime 0.60%float))))).
    reflexivity.
Defined.

(** ** Failure recovery during inference *)

Lemma score_text_until_forward (rt : runtime) (text : string) (w : world) :
  tokenizer_call rt (past w) text (max_length (self w)) = Returned tt ->
  tensors_to rt (Tokenize text (max_length (self w)) :: past w) (device (self w))
  = Returned tt ->
  forall e,
    model_call rt (before_forward text w) (device (self w))
               (outer_contexts (device (self w))) = Raised e ->
    _score_text rt text w =
    match e with
    | RuntimeError msg =>
        let d := device (self w) in
        let outer := outer_contexts d in
        let message := PyStr.lower msg in
        let w1 := mkWorld (self w) (Forward d outer :: before_forward text w) in
        let finish (r : outcome (list float) * world) := (scored rt (fst r), snd r) in
        if is_hip message then
          finish (switch_and_retry rt
                    "[device] Runtime HIP failure during inference; switching to CPU."
                    false outer w1)
        else if is_cuda_family d message then
          finish (switch_and_retry rt
                    "[device] CUDA runtime failure; switching to CPU." false outer w1)
        else if is_directml d message then
          finish (switch_and_retry rt
                    "[device] DirectML execution failed; switching to CPU." true
                    outer w1)
        else (Raised e, w1)
    | _ => (Raised e, mkWorld (self w)
                        (Forward (device (self w)) (outer_contexts (device (self w)))
                           :: before_forward text w))
    end.
Proof.
  intros Htok Hmove e Hfwd.
  unfold _score_text, bind, tokenize, move_tensors, get_device, ask,
    try_except_RuntimeError, forward.
  cbn [self past fst snd]. rewrite Htok. cbn [self past]. rewrite Hmove.
  cbn [self past]. fold (outer_contexts (device (self w))).
  fold (before_forward text w). unfold ask. cbn [self past]. rewrite Hfwd.
  destruct e as [msg| | | | | |]; try reflexivity.
  cbn zeta.
  destruct (is_hip (PyStr.lower msg)).
  { destruct (switch_and_retry _ _ _ _ _) as [[l|e'] w2]; reflexivity. }
  destruct (is_cuda_family (device (self w)) (PyStr.lower msg)).
  { destruct (switch_and_retry _ _ _ _ _) as [[l|e'] w2]; reflexivity. }
  destruct (is_directml (device (self w)) (PyStr.lower msg)).
  { destruct (switch_and_retry _ _ _ _ _) as [[l|e'] w2]; reflexivity. }
  reflexivity.
Qed.

Lemma switch_and_retry_on_cpu (rt : runtime) (line : string) (clear_dml : bool)
    (outer : list context) (w : world) :
  (forall h, model_to rt h cpu = Returned tt) ->
  (forall h, tensors_to rt h cpu = Returned tt) ->
  switch_and_retry rt line clear_dml outer w =
  (model_call rt (TensorsTo cpu :: ModelTo cpu :: Print line :: past w) cpu
              (nullcontext :: outer),
   mkWorld (mkEngine (max_length (self w)) cpu
                     (if clear_dml then false else _dml_device (self w)))
           (Forward cpu (nullcontext :: outer)
              :: TensorsTo cpu :: ModelTo cpu :: Print line :: past w)).
Proof.
  intros Hmodel Htensors.
  unfold switch_and_retry, bind, print, emit, set_device, set_dml_device, ret,
    get_device, move_model, move_tensors, forward, ask.
  destruct clear_dml; cbn [self past device max_length _dml_device];
    rewrite Hmodel; cbn [self past device max_length _dml_device];
    rewrite Htensors; reflexivity.
Qed.

(** C5: when the first forward pass of a call fails with a message of
    a recognized signature, the engine sets its device to "cpu", moves
    the model and the encoded tensors there, and runs the forward pass
    once more, at full precision; what that second pass returns or raises
    is the result.  A failure of any other kind is raised as it is, with
    the engine unchanged and no second pass. *)
Theorem forward_failure_recovery (rt : runtime) (text : string) (w : world) (e : exn) :
  let d := device (self w) in
  let outer := outer_contexts d in
  tokenizer_call rt (past w) text (max_length (self w)) = Returned tt ->
  tensors_to rt (Tokenize text (max_length (self w)) :: past w) d = Returned tt ->
  model_call rt (before_forward text w) d outer = Raised e ->
  (forall msg,
     e = RuntimeError msg ->
     recognized d msg = true ->
     (forall h, model_to rt h cpu = Returned tt) ->
     (forall h, tensors_to rt h cpu = Returned tt) ->
     let message := PyStr.lower msg in
     let h2 :=
       TensorsTo cpu :: ModelTo cpu :: Print (recovery_line d message)
         :: Forward d outer :: before_forward text w in
     let retry := Forward cpu (nullcontext :: outer) in
     _score_text rt text w
     = (scored rt (model_call rt h2 cpu (nullcontext :: outer)),
        mkWorld (mkEngine (max_length (self w)) cpu
                   (if recovery_clears_dml d message then false
                    else _dml_device (self w)))
                (retry :: h2)) /\
     reduced_precision retry = false) /\
  ((forall msg, e = RuntimeError msg -> recognized d msg = false) ->
   _score_text rt text w
   = (Raised e, mkWorld (self w) (Forward d outer :: before_forward text w))).
Proof.
  intros d outer Htok Hmove Hfwd.
  pose proof (score_text_until_forward rt text w Htok Hmove e Hfwd) as Hs.
  split.
  - intros msg -> Hrec Hmodel Htensors message h2 retry.
    split; [|reflexivity].
    rewrite Hs. cbn zeta. fold d outer message.
    unfold recognized in Hrec. fold message in Hrec.
    subst h2 retry. unfold recovery_line, recovery_clears_dml.
    destruct (is_hip message); [|destruct (is_cuda_family d message);
      [|destruct (is_directml d message); [|discriminate Hrec]]];
      rewrite (switch_and_retry_on_cpu _ _ _ _ _ Hmodel Htensors); reflexivity.
  - intros Hnot. rewrite Hs. destruct e as [msg| | | | | |]; try reflexivity.
    specialize (Hnot msg eq_refl). unfold recognized in Hnot. cbn zeta.
    fold d. destruct (is_hip (PyStr.lower msg)); [discriminate Hnot|].
    destruct (is_cuda_family d (PyStr.lower msg)); [discriminate Hnot|].
    destruct (is_directml d (PyStr.lower msg)); [discriminate Hnot|].
    reflexivity.
Qed.

Lemma forward_failure_recovery_witness :
  _score_text (failing_cuda_runtime 0.75%float) "text" fresh_cuda_world
  = (Returned 0.75%float,
     mkWorld (mkEngine 512 cpu false)
       [Forward cpu [nullcontext; autocast_cuda_float16; no_grad];
        TensorsTo cpu; ModelTo cpu;
        Print "[device] CUDA runtime failure; switching to CPU.";
        Forward cuda [autocast_cuda_float16; no_grad];
        TensorsTo cuda; Tokenize "text" 512]) /\
  _score_text rejecting_runtime "text" fresh_cuda_world
  = (Raised (RuntimeError "size mismatch"),
     mkWorld (mkEngine 512 cuda false)
       [Forward cuda [autocast_cuda_float16; no_grad];
        TensorsTo cuda; Tokenize "text" 512]).
Proof.
  split.
  - apply (proj1 (forward_failure_recovery (failing_cuda_runtime 0.75%float) "text"
                    fresh_cuda_world (RuntimeError "CUBLAS_STATUS_ALLOC_FAILED")
                    eq_refl eq_refl eq_refl)
                 "CUBLAS_STATUS_ALLOC_FAILED" eq_refl eq_refl
                 (fun _ => eq_refl) (fun _ => eq_refl)).
  - apply (proj2 (forward_failure_recovery rejecting_runtime "text"
                    fresh_cuda_world (RuntimeError "size mismatch")
                    eq_refl eq_refl eq_refl)).
    intros msg [= <-]. reflexivity.
Defined.

(** ** The device over the life of an engine *)

Lemma switch_and_retry_device (rt : runtime) (line : string) (clear_dml : bool)
    (outer : list context) (w : world) :
  device (self (snd (switch_and_retry rt line clear_dml outer w))) = cpu.
Proof.
  unfold switch_and_retry, bind, print, emit, set_device, set_dml_device, ret,
    get_device, move_model, move_tensors, forward, ask.
  cbn [self past device fst snd].
  destruct clear_dml; cbn [self past device fst snd];
    split_matches; reflexivity.
Qed.

Lemma score_text_device (rt : runtime) (text : string) (w : world) :
  let after := device (self (snd (_score_text rt text w))) in
  toward_cpu (device (self w)) after /\
  (after <> device (self w) -> recognized_failure rt (device (self w))).
Proof.
  cbn zeta.
  destruct (tokenizer_call rt (past w) text (max_length (self w))) as [[]|e0] eqn:Htok.
  2:{ unfold _score_text, bind, tokenize, ask. rewrite Htok. cbn.
      split; [left; reflexivity | intros H; contradiction H; reflexivity]. }
  destruct (tensors_to rt (Tokenize text (max_length (self w)) :: past w)
              (device (self w))) as [[]|e0] eqn:Hmove.
  2:{ unfold _score_text, bind, tokenize, move_tensors, get_device, ask.
      rewrite Htok. cbn [self past]. rewrite Hmove. cbn.
      split; [left; reflexivity | intros H; contradiction H; reflexivity]. }
  destruct (model_call rt (before_forward text w) (device (self w))
              (outer_contexts (device (self w)))) as [logits|e] eqn:Hfwd.
  { unfold _score_text, bind, tokenize, move_tensors, get_device, ask,
      try_except_RuntimeError, forward, ret.
    rewrite Htok. cbn [self past]. rewrite Hmove. cbn [self past].
    fold (outer_contexts (device (self w))). fold (before_forward text w).
    unfold ask. cbn [self past]. rewrite Hfwd. cbn.
    split; [left; reflexivity | intros H; contradiction H; reflexivity]. }
  rewrite (score_text_until_forward rt text w Htok Hmove e Hfwd).
  assert (Hstay : forall h,
             toward_cpu (device (self w))
                        (device (self (snd (@Raised float e, mkWorld (self w) h)))) /\
             (device (self (snd (@Raised float e, mkWorld (self w) h)))
              <> device (self w) -> recognized_failure rt (device (self w)))).
  { intros h. cbn. split; [left; reflexivity | intros H; contradiction H; reflexivity]. }
  destruct e as [msg| | | | | |]; try apply Hstay.
  cbn zeta.
  assert (Hgo : forall line clear,
             recognized (device (self w)) msg = true ->
             let r := switch_and_retry rt line clear
                        (outer_contexts (device (self w)))
                        (mkWorld (self w)
                           (Forward (device (self w))
                              (outer_contexts (device (self w)))
                              :: before_forward text w)) in
             toward_cpu (device (self w))
                        (device (self (snd (scored rt (fst r), snd r)))) /\
             (device (self (snd (scored rt (fst r), snd r))) <> device (self w) ->
              recognized_failure rt (device (self w)))).
  { intros line clear Hrec. cbn zeta. cbn [snd].
    rewrite switch_and_retry_device. split; [right; reflexivity|].
    intros _. exists (before_forward text w),
      (outer_contexts (device (self w))), msg. split; assumption. }
  unfold recognized in Hgo.
  destruct (is_hip (PyStr.lower msg)); [apply Hgo; reflexivity|].
  destruct (is_cuda_family (device (self w)) (PyStr.lower msg));
    [apply Hgo; reflexivity|].
  destruct (is_directml (device (self w)) (PyStr.lower msg));
    [apply Hgo; reflexivity|].
  apply Hstay.
Qed.

Lemma classify_world (rt : runtime) (text : string) (age : pyage) (w : world) :
  snd (classify rt text age w) = snd (_score_text rt text w).
Proof.
  rewrite classify_unfold.
  destruct (_score_text rt text w) as [[s|e] w']; [|reflexivity].
  destruct (resolve_policy age); reflexivity.
Qed.

Lemma call_device (rt : runtime) (w w' : world) :
  call rt w w' ->
  toward_cpu (device (self w)) (device (self w')) /\
  (device (self w') <> device (self w) -> recognized_failure rt (device (self w))).
Proof.
  intros [text w0 | text age w0].
  - apply score_text_device.
  - rewrite classify_world. apply score_text_device.
Qed.

Lemma calls_device (rt : runtime) (w w' : world) :
  calls rt w w' -> toward_cpu (device (self w)) (device (self w')).
Proof.
  induction 1 as [w | w w1 w2 Hstep _ IH].
  - left. reflexivity.
  - destruct (call_device rt w w1 Hstep) as [[H1 | H1] _];
      destruct IH as [H2 | H2]; unfold toward_cpu; rewrite ?H2, ?H1; auto.
Qed.

Lemma place_on_selected_device (rt : runtime) (h : host) (w : world) :
  device (self (snd (place_on_selected rt h w))) = device (self w).
Proof.
  unfold place_on_selected, bind, get_device, set_dml_device, move_model, ask,
    lift, ret, raise.
  cbn [self past device fst snd].
  destruct (device_eqb (device (self w)) dml); [|reflexivity].
  destruct (directml_imported h); [|reflexivity].
  destruct (directml_device h); reflexivity.
Qed.

Lemma place_on_cpu_if_recognized_device (rt : runtime) (msg : string) (w : world) :
  let r := place_on_cpu_if_recognized rt msg w in
  (recognized (device (self w)) msg = true /\ device (self (snd r)) = cpu) \/
  (recognized (device (self w)) msg = false /\ r = (Raised (RuntimeError msg), w)).
Proof.
  cbn zeta.
  unfold place_on_cpu_if_recognized, recognized, bind, get_device, set_device,
    set_dml_device, move_model, ask, print, emit, ret, raise.
  cbn [self past device fst snd].
  destruct (is_hip (PyStr.lower msg)); [left; split; reflexivity|].
  destruct (is_cuda_family (device (self w)) (PyStr.lower msg));
    [left; split; reflexivity|].
  destruct (is_directml (device (self w)) (PyStr.lower msg));
    [left; split; reflexivity|].
  right. split; reflexivity.
Qed.

Lemma place_model_device (rt : runtime) (h : host) (w : world) :
  let after := device (self (snd (place_model rt h w))) in
  toward_cpu (device (self w)) after /\
  (after <> device (self w) -> placement_failure rt h w).
Proof.
  cbn zeta. unfold place_model, try_except_RuntimeError, placement_failure.
  pose proof (place_on_selected_device rt h w) as Hbody.
  destruct (place_on_selected rt h w) as [[u|e] w1]; cbn [snd] in Hbody.
  - cbn [snd]. rewrite Hbody.
    split; [left; reflexivity | intros H; contradiction H; reflexivity].
  - destruct e as [msg| | | | | |]; cbn [snd]; rewrite ?Hbody;
      try (split; [left; reflexivity | intros H; contradiction H; reflexivity]).
    destruct (place_on_cpu_if_recognized_device rt msg w1) as [[Hrec Hcpu] | [_ Hraise]].
    + rewrite Hcpu. rewrite Hbody in Hrec. split; [right; reflexivity|].
      intros _. exists msg, w1. split; [reflexivity | exact Hrec].
    + cbn zeta in Hraise. rewrite Hraise. cbn [snd]. rewrite Hbody.
      split; [left; reflexivity | intros H; contradiction H; reflexivity].
Qed.

Lemma init_device (rt : runtime) (ckpt : checkpoint) (h : host)
    (device_arg : option string) (e : engine) (hist : history) :
  __init__ rt ckpt h device_arg = (Returned e, hist) ->
  exists d,
    fst (_select_device h device_arg) = Returned d /\
    toward_cpu d (device e) /\
    (device e <> d ->
     exists w, device (self w) = d /\ placement_failure rt h w).
Proof.
  unfold __init__.
  destruct (negb (path_exists ckpt)); [discriminate|].
  destruct (_load_tokenizer ckpt) as [[a|?] printed]; [|discriminate].
  destruct (model_load ckpt) as [c|?]; [|discriminate].
  destruct (_select_device h device_arg) as [[d|?] printed']; [|discriminate].
  set (w0 := mkWorld _ _).
  pose proof (place_model_device rt h w0) as Hp. cbn zeta in Hp.
  destruct (place_model rt h w0) as [[u|?] w1]; [|discriminate].
  intros [= <- _]. exists d. split; [reflexivity|].
  destruct Hp as [Hto Hchg]. split; [exact Hto|].
  intros Hne. exists w0. split; [reflexivity | exact (Hchg Hne)].
Qed.

(** C4: the device of an engine moves only toward "cpu".  Construction
    leaves it where [_select_device] put it or on "cpu"; each call leaves
    it where it was or on "cpu", and changes it only after a forward
    failure of a recognized signature; over any sequence of calls an
    engine that is on "cpu" stays on "cpu". *)
Theorem device_only_moves_to_cpu (rt : runtime) :
  (forall ckpt h device_arg e hist,
     __init__ rt ckpt h device_arg = (Returned e, hist) ->
     exists d,
       fst (_select_device h device_arg) = Returned d /\
       toward_cpu d (device e) /\
       (device e <> d ->
        exists w, device (self w) = d /\ placement_failure rt h w)) /\
  (forall w w',
     call rt w w' ->
     toward_cpu (device (self w)) (device (self w')) /\
     (device (self w') <> device (self w) ->
      recognized_failure rt (device (self w)))) /\
  (forall w w',
     calls rt w w' -> toward_cpu (device (self w)) (device (self w'))) /\
  (forall w w',
     calls rt w w' -> device (self w) = cpu -> device (self w') = cpu).
Proof.
  split; [exact (init_device rt)|].
  split; [exact (call_device rt)|].
  split; [exact (calls_device rt)|].
  intros w w' Hcalls Hcpu.
  destruct (calls_device rt w w' Hcalls) as [H | H]; congruence.
Qed.

Lemma device_only_moves_to_cpu_witness :
  device (self (snd (classify (failing_cuda_runtime 0.75%float) "first" (AgeInt 10)
                       fresh_cuda_world))) = cpu /\
  device (self (snd (_score_text (failing_cuda_runtime 0.75%float) "second"
                       (snd (classify (failing_cuda_runtime 0.75%float) "first"
                               (AgeInt 10) fresh_cuda_world))))) = cpu.
Proof.
  split; [reflexivity|].
  apply (proj2 (proj2 (proj2 (device_only_moves_to_cpu
                                (failing_cuda_runtime 0.75%float))))
               (snd (classify (failing_cuda_runtime 0.75%float) "first" (AgeInt 10)
                       fresh_cuda_world))).
  - eapply Relation_Operators.rt1n_trans; [apply call_score_text|].
    apply Relation_Operators.rt1n_refl.
  - reflexivity.
Defined.

(** * Further properties of the code *)

(** ** Device selection *)

Lemma lower_char_idempotent (c : ascii) :
  PyStr.lower_char (PyStr.lower_char c) = PyStr.lower_char c.
Proof. destruct c as [[] [] [] [] [] [] [] []]; reflexivity. Qed.

Lemma lower_idempotent (s : string) : PyStr.lower (PyStr.lower s) = PyStr.lower s.
Proof.
  induction s as [|c r IH]; [reflexivity|].
  simpl. rewrite lower_char_idempotent, IH. reflexivity.
Qed.

Lemma lower_nonempty (c : ascii) (r : string) :
  PyStr.lower (String c r) = String (PyStr.lower_char c) (PyStr.lower r).
Proof. reflexivity. Qed.

Lemma probe_or_checked (probe : outcome unit) (d d' : device_name) (m : string)
    (rest : printing device_name) (printed : list string) :
  probe_or probe d m rest = (Returned d', printed) ->
  (probe = Returned tt /\ d' = d) \/
  (exists msg printed',
     probe = Raised (RuntimeError msg) /\ rest = (Returned d', printed')).
Proof.
  unfold probe_or. destruct probe as [[]|e].
  - intros [= <- _]. left. split; reflexivity.
  - destruct e as [msg| | | | | |]; try discriminate.
    destruct rest as [r printed']. intros [= -> _].
    right. exists msg, printed'. split; reflexivity.
Qed.

(** What [_select_device] does with a non-empty [explicit], by the
    lower-cased name. *)
Lemma select_explicit (h : host) (c : ascii) (r : string) :
  let explicit := String c r in
  let choice := PyStr.lower explicit in
  _select_device h (Some explicit) =
  if PyStr.mem choice ["cuda"; "gpu"] then
    if cuda_is_available h then
      probe_or (cuda_probe h) cuda msg_cuda_failed (Returned cpu, [])
    else (Returned cpu, [msg_cuda_unavailable])
  else if String.eqb choice "mps" then
    if mps_usable h then
      probe_or (mps_probe h) mps msg_mps_failed (Returned cpu, [])
    else (Raised (RuntimeError "MPS requested but not available on this system."), [])
  else if PyStr.mem choice ["dml"; "directml"] then
    if _has_directml h then (Returned dml, [])
    else (Raised (RuntimeError
                    "DirectML requested but torch-directml is not installed."), [])
  else if String.eqb choice "cpu" then (Returned cpu, [])
  else (Raised (ValueError ("Unsupported device override '" ++ explicit ++ "'.")), []).
Proof. reflexivity. Qed.

(** X1: a device name is matched without regard to letter case: a
    spelling whose lower-case form is one of the accepted names selects
    what the lower-case form selects, with the same printed lines. *)
Theorem select_device_ignores_case (h : host) (explicit : string) :
  PyStr.mem (PyStr.lower explicit) known_device_names = true ->
  _select_device h (Some explicit) = _select_device h (Some (PyStr.lower explicit)).
Proof.
  intros Hknown. destruct explicit as [|c r]; [discriminate Hknown|].
  rewrite lower_nonempty. rewrite !select_explicit. cbn zeta.
  rewrite <- lower_nonempty, lower_idempotent.
  set (choice := PyStr.lower (String c r)) in *.
  destruct (PyStr.mem choice ["cuda"; "gpu"]) eqn:E1; [reflexivity|].
  destruct (String.eqb choice "mps") eqn:E2; [reflexivity|].
  destruct (PyStr.mem choice ["dml"; "directml"]) eqn:E3; [reflexivity|].
  destruct (String.eqb choice "cpu") eqn:E4; [reflexivity|].
  exfalso. unfold known_device_names, PyStr.mem in *. cbn [existsb] in *.
  rewrite E2, E4 in Hknown. revert E1 E3 Hknown.
  destruct (String.eqb choice "cuda"), (String.eqb choice "gpu"),
    (String.eqb choice "dml"), (String.eqb choice "directml");
    cbn; intros; discriminate.
Qed.

Lemma select_device_ignores_case_witness :
  _select_device flaky_mps_host (Some "DirectML")
  = _select_device flaky_mps_host (Some "directml").
Proof. apply (select_device_ignores_case flaky_mps_host "DirectML"). reflexivity. Defined.

(** X2: a name outside the accepted ones is rejected with a
    [ValueError] that quotes the name as it was given, whatever the
    machine offers and without printing anything. *)
Theorem select_device_rejects_unknown (h : host) (explicit : string) :
  explicit <> EmptyString ->
  PyStr.mem (PyStr.lower explicit) known_device_names = false ->
  _select_device h (Some explicit)
  = (Raised (ValueError ("Unsupported device override '" ++ explicit ++ "'.")), []).
Proof.
  intros Hne Hunknown. destruct explicit as [|c r]; [contradiction|].
  rewrite select_explicit. cbn zeta.
  set (choice := PyStr.lower (String c r)) in *.
  unfold known_device_names, PyStr.mem in *. cbn [existsb] in *. revert Hunknown.
  destruct (String.eqb choice "cuda"), (String.eqb choice "gpu"),
    (String.eqb choice "mps"), (String.eqb choice "dml"),
    (String.eqb choice "directml"), (String.eqb choice "cpu");
    cbn; intros; try discriminate; reflexivity.
Qed.

Lemma select_device_rejects_unknown_witness :
  _select_device working_mps_host (Some "GPU0")
  = (Raised (ValueError "Unsupported device override 'GPU0'."), []).
Proof.
  apply (select_device_rejects_unknown working_mps_host "GPU0");
    [discriminate | reflexivity].
Defined.

Lemma auto_after_cuda_checked (h : host) (d : device_name) (printed : list string) :
  auto_after_cuda h = (Returned d, printed) -> device_checked h d.
Proof.
  unfold auto_after_cuda. fold (mps_usable h).
  assert (Hrest : forall printed',
             (Returned (if _has_directml h then dml else cpu), @nil string)
             = (Returned d, printed') -> device_checked h d).
  { intros printed' [= <- _]. destruct (_has_directml h) eqn:E; simpl; auto. }
  destruct (mps_usable h) eqn:Emps; [|apply Hrest].
  intros H. apply probe_or_checked in H.
  destruct H as [[Hp ->] | (msg & printed' & _ & Hr)].
  - split; assumption.
  - exact (Hrest _ Hr).
Qed.

Lemma auto_detect_checked (h : host) (d : device_name) (printed : list string) :
  auto_detect h = (Returned d, printed) -> device_checked h d.
Proof.
  unfold auto_detect. destruct (cuda_is_available h) eqn:Ecuda.
  - intros H. apply probe_or_checked in H.
    destruct H as [[Hp ->] | (msg & printed' & _ & Hr)].
    + split; assumption.
    + exact (auto_after_cuda_checked _ _ _ Hr).
  - apply auto_after_cuda_checked.
Qed.

(** X3: [_select_device] hands out an accelerator only after its
    checks passed: "cuda" and "mps" only when the backend reported
    itself available and the trial allocation returned, "dml" only when
    DirectML is installed and gave a device; this holds for explicit
    requests and for auto-detection alike. *)
Theorem select_device_checked (h : host) (explicit : option string)
    (d : device_name) (printed : list string) :
  _select_device h explicit = (Returned d, printed) -> device_checked h d.
Proof.
  destruct explicit as [[|c r]|]; try apply auto_detect_checked.
  rewrite select_explicit. cbn zeta.
  set (choice := PyStr.lower (String c r)).
  destruct (PyStr.mem choice ["cuda"; "gpu"]).
  { destruct (cuda_is_available h) eqn:Ecuda.
    - intros H. apply probe_or_checked in H.
      destruct H as [[Hp ->] | (msg & printed' & _ & [= <- _])];
        [split; assumption | exact I].
    - intros [= <- _]. exact I. }
  destruct (String.eqb choice "mps").
  { destruct (mps_usable h) eqn:Emps; [|discriminate].
    intros H. apply probe_or_checked in H.
    destruct H as [[Hp ->] | (msg & printed' & _ & [= <- _])];
      [split; assumption | exact I]. }
  destruct (PyStr.mem choice ["dml"; "directml"]).
  { destruct (_has_directml h) eqn:Edml; [|discriminate].
    intros [= <- _]. exact Edml. }
  destruct (String.eqb choice "cpu"); [|discriminate].
  intros [= <- _]. exact I.
Qed.

Lemma select_device_checked_witness :
  device_checked flaky_cuda_directml_host dml.
Proof.
  apply (select_device_checked flaky_cuda_directml_host None dml [msg_cuda_failed]).
  reflexivity.
Defined.

(** X4: an explicit "cuda" or "gpu" request never fails on a missing or
    broken CUDA: unless the trial allocation raises something other than
    [RuntimeError], the answer is "cuda" with nothing printed, or "cpu"
    with exactly one printed line. *)
Theorem explicit_cuda_degrades (h : host) (explicit : string) :
  PyStr.mem (PyStr.lower explicit) ["cuda"; "gpu"] = true ->
  (forall e, cuda_probe h = Raised e -> exists msg, e = RuntimeError msg) ->
  _select_device h (Some explicit) = (Returned cuda, []) \/
  exists line, _select_device h (Some explicit) = (Returned cpu, [line]).
Proof.
  intros Hname Hsoft. destruct explicit as [|c r]; [discriminate Hname|].
  rewrite select_explicit. cbn zeta. rewrite Hname.
  destruct (cuda_is_available h); [|right; eexists; reflexivity].
  unfold probe_or. destruct (cuda_probe h) as [[]|e] eqn:Ep.
  - left. reflexivity.
  - destruct (Hsoft e eq_refl) as (msg & ->). right. eexists. reflexivity.
Qed.

Lemma explicit_cuda_degrades_witness :
  _select_device flaky_cuda_directml_host (Some "GPU") = (Returned cuda, []) \/
  exists line,
    _select_device flaky_cuda_directml_host (Some "GPU") = (Returned cpu, [line]).
Proof.
  apply (explicit_cuda_degrades flaky_cuda_directml_host "GPU"); [reflexivity|].
  intros e [= <-]. eexists. reflexivity.
Defined.

(** X5: an explicit "dml" or "directml" request is decided by
    [_has_directml] alone: "dml" when it holds, a [RuntimeError]
    otherwise; it never comes back as another device and prints
    nothing, whatever CUDA and MPS do on the machine. *)
Theorem explicit_dml_all_or_nothing (h : host) (explicit : string) :
  PyStr.mem (PyStr.lower explicit) ["dml"; "directml"] = true ->
  _select_device h (Some explicit)
  = if _has_directml h then (Returned dml, [])
    else (Raised (RuntimeError
                    "DirectML requested but torch-directml is not installed."), []).
Proof.
  intros Hname. destruct explicit as [|c r]; [discriminate Hname|].
  rewrite select_explicit. cbn zeta.
  set (choice := PyStr.lower (String c r)) in *.
  assert (Hcases : choice = "dml" \/ choice = "directml").
  { unfold PyStr.mem in Hname. cbn [existsb] in Hname.
    destruct (String.eqb_spec choice "dml") as [E|_]; [left; exact E|].
    destruct (String.eqb_spec choice "directml") as [E|_]; [right; exact E|].
    discriminate Hname. }
  destruct Hcases as [E | E]; rewrite E; reflexivity.
Qed.

Lemma explicit_dml_all_or_nothing_witness :
  _select_device flaky_mps_host (Some "DML")
  = (Raised (RuntimeError
               "DirectML requested but torch-directml is not installed."), []).
Proof. apply (explicit_dml_all_or_nothing flaky_mps_host "DML"). reflexivity. Defined.

(** X6: without a request ([None] or the empty string) and with probes
    that fail only by [RuntimeError], [_select_device] never raises and
    settles on the first of "cuda", "mps", "dml" that passes its checks,
    else on "cpu". *)
Theorem auto_detect_best_device (h : host) (explicit : option string) :
  explicit = None \/ explicit = Some EmptyString ->
  probes_fail_softly h ->
  fst (_select_device h explicit) = Returned (best_device h).
Proof.
  intros Hauto [Hcuda Hmps].
  assert (Hsel : _select_device h explicit = auto_detect h)
    by (destruct Hauto as [-> | ->]; reflexivity).
  rewrite Hsel. clear Hsel Hauto.
  assert (Hafter : fst (auto_after_cuda h) =
                   Returned (if (mps_usable h && probe_passed (mps_probe h))%bool
                             then mps
                             else if _has_directml h then dml else cpu)).
  { unfold auto_after_cuda. fold (mps_usable h).
    destruct (mps_usable h); [|reflexivity].
    unfold probe_or. destruct (mps_probe h) as [[]|e] eqn:Ep; [reflexivity|].
    destruct (Hmps e eq_refl) as (msg & ->). reflexivity. }
  unfold auto_detect, best_device.
  destruct (cuda_is_available h); [|exact Hafter].
  unfold probe_or. destruct (cuda_probe h) as [[]|e] eqn:Ep; [reflexivity|].
  destruct (Hcuda e eq_refl) as (msg & ->). cbn [andb probe_passed].
  destruct (auto_after_cuda h) as [r printed]. exact Hafter.
Qed.

Lemma auto_detect_best_device_witness :
  fst (_select_device flaky_cuda_directml_host (Some EmptyString)) = Returned dml.
Proof.
  apply (auto_detect_best_device flaky_cuda_directml_host (Some EmptyString)).
  - right. reflexivity.
  - split; intros e [= <-]; eexists; reflexivity.
Defined.

(** ** Inference *)

Lemma score_text_returns (rt : runtime) (text : string) (w : world)
    (logits : list float) :
  tokenizer_call rt (past w) text (max_length (self w)) = Returned tt ->
  tensors_to rt (Tokenize text (max_length (self w)) :: past w) (device (self w))
  = Returned tt ->
  model_call rt (before_forward text w) (device (self w))
             (outer_contexts (device (self w))) = Returned logits ->
  _score_text rt text w
  = (Returned (positive_probability rt logits),
     mkWorld (self w)
       (Forward (device (self w)) (outer_contexts (device (self w)))
          :: before_forward text w)).
Proof.
  intros Htok Hmove Hfwd.
  unfold _score_text, bind, tokenize, move_tensors, get_device, ask,
    try_except_RuntimeError, forward, ret.
  rewrite Htok. cbn [self past]. rewrite Hmove. cbn [self past].
  fold (outer_contexts (device (self w))). fold (before_forward text w).
  unfold ask. cbn [self past]. rewrite Hfwd. reflexivity.
Qed.

Lemma score_text_tokenizer_raises (rt : runtime) (text : string) (w : world) (e : exn) :
  tokenizer_call rt (past w) text (max_length (self w)) = Raised e ->
  _score_text rt text w
  = (Raised e, mkWorld (self w) (Tokenize text (max_length (self w)) :: past w)).
Proof.
  intros Htok. unfold _score_text, bind, tokenize, ask. rewrite Htok. reflexivity.
Qed.

Lemma score_text_move_raises (rt : runtime) (text : string) (w : world) (e : exn) :
  tokenizer_call rt (past w) text (max_length (self w)) = Returned tt ->
  tensors_to rt (Tokenize text (max_length (self w)) :: past w) (device (self w))
  = Raised e ->
  _score_text rt text w = (Raised e, mkWorld (self w) (before_forward text w)).
Proof.
  intros Htok Hmove.
  unfold _score_text, bind, tokenize, move_tensors, get_device, ask.
  rewrite Htok. cbn [self past]. rewrite Hmove. reflexivity.
Qed.

(** X7: when tokenization, the tensor move and the forward pass go
    through, [_score_text] returns the probability read from the logits
    after one forward pass, leaves the engine as it was, and ran that
    pass in half precision exactly when the device is "cuda". *)
Theorem score_text_clean_pass (rt : runtime) (text : string) (w : world)
    (logits : list float) :
  let d := device (self w) in
  tokenizer_call rt (past w) text (max_length (self w)) = Returned tt ->
  tensors_to rt (Tokenize text (max_length (self w)) :: past w) d = Returned tt ->
  model_call rt (before_forward text w) d (outer_contexts d) = Returned logits ->
  _score_text rt text w
  = (Returned (positive_probability rt logits),
     mkWorld (self w) (Forward d (outer_contexts d) :: before_forward text w)) /\
  reduced_precision (Forward d (outer_contexts d)) = device_eqb d cuda.
Proof.
  intros d Htok Hmove Hfwd. subst d. split.
  - exact (score_text_returns rt text w logits Htok Hmove Hfwd).
  - destruct (device (self w)); reflexivity.
Qed.

Lemma score_text_clean_pass_witness :
  _score_text (steady_runtime 0.5%float) "text" fresh_cuda_world
  = (Returned 0.5%float,
     mkWorld (mkEngine 512 cuda false)
       [Forward cuda [autocast_cuda_float16; no_grad];
        TensorsTo cuda; Tokenize "text" 512]) /\
  reduced_precision (Forward cuda [autocast_cuda_float16; no_grad]) = true.
Proof.
  apply (score_text_clean_pass (steady_runtime 0.5%float) "text" fresh_cuda_world []);
    reflexivity.
Defined.

(** X8: the recovery covers the forward pass only.  A failure of the
    tokenizer, or of the move of the encoded tensors to the device, is
    raised as it is, whatever its message says, with the engine unchanged
    and no forward pass attempted. *)
Theorem score_text_early_failure (rt : runtime) (text : string) (w : world) (e : exn) :
  (tokenizer_call rt (past w) text (max_length (self w)) = Raised e ->
   _score_text rt text w
   = (Raised e, mkWorld (self w) (Tokenize text (max_length (self w)) :: past w))) /\
  (tokenizer_call rt (past w) text (max_length (self w)) = Returned tt ->
   tensors_to rt (Tokenize text (max_length (self w)) :: past w) (device (self w))
   = Raised e ->
   _score_text rt text w = (Raised e, mkWorld (self w) (before_forward text w))).
Proof.
  split.
  - apply score_text_tokenizer_raises.
  - apply score_text_move_raises.
Qed.

Lemma score_text_early_failure_witness :
  _score_text failing_tokenizer_runtime "text" fresh_cuda_world
  = (Raised (RuntimeError "CUDA error: device-side assert"),
     mkWorld (mkEngine 512 cuda false) [Tokenize "text" 512]).
Proof.
  apply (proj1 (score_text_early_failure failing_tokenizer_runtime "text"
                  fresh_cuda_world (RuntimeError "CUDA error: device-side assert"))).
  reflexivity.
Defined.

Lemma switch_and_retry_events (rt : runtime) (line : string) (clear_dml : bool)
    (outer : list context) (w : world) :
  let w' := snd (switch_and_retry rt line clear_dml outer w) in
  exists new,
    past w' = (new ++ past w)%list /\
    (count_forward new <= 1)%nat /\
    Forall (targets_within cpu) new /\
    max_length (self w') = max_length (self w) /\
    device (self w') = cpu.
Proof.
  cbn zeta.
  unfold switch_and_retry, bind, print, emit, set_device, set_dml_device, ret,
    get_device, move_model, move_tensors, forward, ask.
  destruct clear_dml; cbn [self past device fst snd max_length];
    (destruct (model_to rt _ cpu) as [[]|?];
     [destruct (tensors_to rt _ cpu) as [[]|?]|]);
    cbn [self past device fst snd max_length];
    [ exists [Forward cpu (nullcontext :: outer); TensorsTo cpu; ModelTo cpu; Print line]
    | exists [TensorsTo cpu; ModelTo cpu; Print line]
    | exists [ModelTo cpu; Print line]
    | exists [Forward cpu (nullcontext :: outer); TensorsTo cpu; ModelTo cpu; Print line]
    | exists [TensorsTo cpu; ModelTo cpu; Print line]
    | exists [ModelTo cpu; Print line] ];
    (split; [reflexivity|]); (split; [cbn; lia|]);
    (split; [repeat constructor|]); split; reflexivity.
Qed.

(** What one run of [_score_text] adds to the history and does to the
    engine, over all the ways it can go. *)
Lemma score_text_shape (rt : runtime) (text : string) (w : world) :
  let w' := snd (_score_text rt text w) in
  exists new,
    past w' = (new ++ past w)%list /\
    (count_forward new <= 2)%nat /\
    Forall (targets_within (device (self w))) new /\
    max_length (self w') = max_length (self w) /\
    (self w' = self w \/ device (self w') = cpu).
Proof.
  cbn zeta. set (d := device (self w)).
  assert (Hcpu : forall l, Forall (targets_within cpu) l ->
                           Forall (targets_within d) l).
  { intros l. apply Forall_impl. intros [] H; cbn in *; auto;
      destruct H as [-> | ->]; right; reflexivity. }
  destruct (tokenizer_call rt (past w) text (max_length (self w))) as [[]|e0] eqn:Htok.
  2:{ rewrite (score_text_tokenizer_raises rt text w e0 Htok).
      exists [Tokenize text (max_length (self w))].
      split; [reflexivity|]. split; [cbn; lia|]. split; [repeat constructor|].
      split; [reflexivity | left; reflexivity]. }
  destruct (tensors_to rt (Tokenize text (max_length (self w)) :: past w) d)
    as [[]|e0] eqn:Hmove.
  2:{ rewrite (score_text_move_raises rt text w e0 Htok Hmove).
      exists [TensorsTo d; Tokenize text (max_length (self w))].
      split; [reflexivity|]. split; [cbn; lia|]. split; [repeat constructor|].
      split; [reflexivity | left; reflexivity]. }
  assert (Hone : forall (r : outcome float),
             let w' := snd (r, mkWorld (self w)
                                 (Forward d (outer_contexts d)
                                    :: before_forward text w)) in
             exists new,
               past w' = (new ++ past w)%list /\
               (count_forward new <= 2)%nat /\
               Forall (targets_within d) new /\
               max_length (self w') = max_length (self w) /\
               (self w' = self w \/ device (self w') = cpu)).
  { intros r. cbn zeta.
    exists [Forward d (outer_contexts d); TensorsTo d;
            Tokenize text (max_length (self w))].
    split; [reflexivity|]. split; [cbn; lia|]. split; [repeat constructor|].
    split; [reflexivity | left; reflexivity]. }
  cbn zeta in Hone.
  destruct (model_call rt (before_forward text w) d (outer_contexts d))
    as [logits|e] eqn:Hfwd.
  { rewrite (score_text_returns rt text w logits Htok Hmove Hfwd). apply Hone. }
  rewrite (score_text_until_forward rt text w Htok Hmove e Hfwd).
  destruct e as [msg| | | | | |]; try apply Hone.
  cbn zeta. fold d.
  assert (Hretry : forall line clear,
             let r := switch_and_retry rt line clear (outer_contexts d)
                        (mkWorld (self w)
                           (Forward d (outer_contexts d) :: before_forward text w)) in
             let w' := snd (scored rt (fst r), snd r) in
             exists new,
               past w' = (new ++ past w)%list /\
               (count_forward new <= 2)%nat /\
               Forall (targets_within d) new /\
               max_length (self w') = max_length (self w) /\
               (self w' = self w \/ device (self w') = cpu)).
  { intros line clear. cbn zeta. cbn [snd].
    destruct (switch_and_retry_events rt line clear (outer_contexts d)
                (mkWorld (self w)
                   (Forward d (outer_contexts d) :: before_forward text w)))
      as (new & Hpast & Hcount & Hall & Hlen & Hdev).
    exists (new ++ [Forward d (outer_contexts d); TensorsTo d;
                    Tokenize text (max_length (self w))])%list.
    split; [rewrite Hpast, <- app_assoc; reflexivity|]. split; [|split; [|split]].
    - unfold count_forward in *. rewrite filter_app, length_app. cbn. lia.
    - apply Forall_app. split; [exact (Hcpu _ Hall)|]. repeat constructor.
    - exact Hlen.
    - right. exact Hdev. }
  cbn zeta in Hretry.
  destruct (is_hip (PyStr.lower msg)); [apply Hretry|].
  destruct (is_cuda_family d (PyStr.lower msg)); [apply Hretry|].
  destruct (is_directml d (PyStr.lower msg)); [apply Hretry|].
  apply Hone.
Qed.

Lemma call_shape (rt : runtime) (w w' : world) :
  call rt w w' ->
  exists new,
    past w' = (new ++ past w)%list /\
    (count_forward new <= 2)%nat /\
    Forall (targets_within (device (self w))) new /\
    max_length (self w') = max_length (self w) /\
    (self w' = self w \/ device (self w') = cpu).
Proof.
  intros [text w0 | text age w0].
  - apply score_text_shape.
  - rewrite classify_world. apply score_text_shape.
Qed.

(** X9: one call of [_score_text] or [classify] only adds to the
    history, runs at most two forward passes, and every device it moves
    tensors or the model to, or runs the model on, is the engine's device
    at the start of the call or "cpu". *)
Theorem call_bounded_work (rt : runtime) (w w' : world) :
  call rt w w' ->
  exists new,
    past w' = (new ++ past w)%list /\
    (count_forward new <= 2)%nat /\
    Forall (targets_within (device (self w))) new.
Proof.
  intros Hcall. destruct (call_shape rt w w' Hcall) as (new & H1 & H2 & H3 & _).
  exists new. repeat split; assumption.
Qed.

Lemma call_bounded_work_witness :
  exists new,
    past (snd (classify (failing_cuda_runtime 0.75%float) "first" (AgeInt 10)
                 fresh_cuda_world))
    = (new ++ past fresh_cuda_world)%list /\
    (count_forward new <= 2)%nat /\
    Forall (targets_within (device (self fresh_cuda_world))) new.
Proof.
  apply (call_bounded_work (failing_cuda_runtime 0.75%float) fresh_cuda_world).
  apply call_classify.
Defined.

(** X10: once the engine is on "cpu", no later call, over any sequence
    of calls, moves anything to an accelerator or runs the model on one:
    every event added names "cpu" or no device. *)
Theorem cpu_engine_stays_off_accelerators (rt : runtime) (w w' : world) :
  calls rt w w' ->
  device (self w) = cpu ->
  exists new,
    past w' = (new ++ past w)%list /\ Forall (targets_within cpu) new.
Proof.
  induction 1 as [w | w w1 w2 Hstep _ IH]; intros Hcpu.
  - exists []. split; [reflexivity | constructor].
  - destruct (call_shape rt w w1 Hstep) as (new1 & Hp1 & _ & Hall1 & _ & _).
    assert (Hcpu1 : device (self w1) = cpu).
    { destruct (call_device rt w w1 Hstep) as [[H | H] _]; congruence. }
    destruct (IH Hcpu1) as (new2 & Hp2 & Hall2).
    exists (new2 ++ new1)%list. split.
    + rewrite Hp2, Hp1, app_assoc. reflexivity.
    + apply Forall_app. split; [exact Hall2|]. rewrite Hcpu in Hall1. exact Hall1.
Qed.

Lemma cpu_engine_stays_off_accelerators_witness :
  exists new,
    past (snd (_score_text rejecting_runtime "again" fresh_cpu_world))
    = (new ++ past fresh_cpu_world)%list /\ Forall (targets_within cpu) new.
Proof.
  apply (cpu_engine_stays_off_accelerators rejecting_runtime fresh_cpu_world).
  - eapply Relation_Operators.rt1n_trans; [apply call_score_text|].
    apply Relation_Operators.rt1n_refl.
  - reflexivity.
Defined.

Lemma calls_invariants (rt : runtime) (w w' : world) :
  calls rt w w' ->
  max_length (self w') = max_length (self w) /\
  (dml_handle_ready (self w) -> dml_handle_ready (self w')).
Proof.
  induction 1 as [w | w w1 w2 Hstep _ IH].
  - split; [reflexivity | auto].
  - destruct (call_shape rt w w1 Hstep) as (_ & _ & _ & _ & Hlen & Hself).
    destruct IH as [IHlen IHdml]. split; [congruence|].
    intros Hready. apply IHdml. unfold dml_handle_ready in *.
    destruct Hself as [-> | Hcpu]; [exact Hready|].
    rewrite Hcpu. discriminate.
Qed.

(** X11: over any sequence of calls the engine keeps its maximum
    sequence length, and keeps a DirectML handle whenever its device is
    "dml". *)
Theorem calls_keep_engine_invariants (rt : runtime) (w w' : world) :
  calls rt w w' ->
  max_length (self w') = max_length (self w) /\
  (dml_handle_ready (self w) -> dml_handle_ready (self w')).
Proof. apply calls_invariants. Qed.

Lemma calls_keep_engine_invariants_witness :
  max_length (self (snd (classify (failing_cuda_runtime 0.75%float) "first" AgeNone
                           fresh_cuda_world))) = 512 /\
  dml_handle_ready (self (snd (classify (failing_cuda_runtime 0.75%float) "first"
                                 AgeNone fresh_cuda_world))).
Proof.
  destruct (calls_keep_engine_invariants (failing_cuda_runtime 0.75%float)
              fresh_cuda_world
              (snd (classify (failing_cuda_runtime 0.75%float) "first" AgeNone
                      fresh_cuda_world))) as [Hlen Hdml].
  - eapply Relation_Operators.rt1n_trans; [apply call_classify|].
    apply Relation_Operators.rt1n_refl.
  - split; [exact Hlen|]. apply Hdml. intros H. discriminate H.
Defined.

(** ** The decision across ages *)

(** Comparison with a positive finite number: what is at least [y] is
    at least any positive [x] that is no larger than [y]. *)
Lemma SFleb_lower_bound (mx my : positive) (ex ey : Z) (z : spec_float) :
  ex < ey \/ (ex = ey /\ (mx <= my)%positive) ->
  SFleb (S754_finite false my ey) z = true ->
  SFleb (S754_finite false mx ex) z = true.
Proof.
  intros Hle. unfold SFleb, SFcompare.
  destruct z as [sz|sz| |sz mz ez]; try (intros H; exact H).
  destruct sz; [intros H; exact H|].
  change (PosDef.Pos.compare_cont Eq my mz) with (Pos.compare my mz).
  change (PosDef.Pos.compare_cont Eq mx mz) with (Pos.compare mx mz).
  destruct (Z.compare_spec ey ez) as [Hy|Hy|Hy];
    destruct (Z.compare_spec ex ez) as [Hx|Hx|Hx];
    try reflexivity; try discriminate; try lia.
  subst ez. assert (Hm : (mx <= my)%positive) by (destruct Hle as [|[_ ?]]; [lia|assumption]).
  destruct (Pos.compare_spec my mz) as [Hmy|Hmy|Hmy];
    destruct (Pos.compare_spec mx mz) as [Hmx|Hmx|Hmx];
    try reflexivity; try discriminate; lia.
Qed.

(** The thresholds of the default table, as bounds on a score. *)
Lemma default_thresholds_nested (s : float) :
  ((0.55 <=? s)%float = true -> (0.35 <=? s)%float = true) /\
  ((0.35 <=? s)%float = true -> (0.25 <=? s)%float = true).
Proof.
  rewrite !leb_spec.
  set (c55 := Prim2SF 0.55%float). set (c35 := Prim2SF 0.35%float).
  set (c25 := Prim2SF 0.25%float).
  vm_compute in c55, c35, c25. subst c55 c35 c25.
  split; apply SFleb_lower_bound; [left; lia | right; split; [reflexivity | lia]].
Qed.

(** X12: with the default table the decision is stricter for the
    young: when [classify] blocks a text for some integer age, it blocks
    the same text, with the same score and the same effect on the
    engine, for every lower integer age. *)
Theorem block_carries_to_younger (rt : runtime) (text : string) (w w' : world)
    (age1 age2 : Z) (r2 : classification) :
  age1 <= age2 ->
  classify rt text (AgeInt age2) w = (Returned r2, w') ->
  should_block r2 = true ->
  exists r1,
    classify rt text (AgeInt age1) w = (Returned r1, w') /\
    score r1 = score r2 /\
    should_block r1 = true.
Proof.
  intros Hle. rewrite !classify_unfold, !resolve_policy_ranges.
  destruct (_score_text rt text w) as [[s|e] w0]; [|discriminate].
  intros [= <- <-]. cbn [should_block score threshold].
  destruct (default_thresholds_nested s) as [H55 H35].
  intros Hblock. eexists. split; [reflexivity|]. split; [reflexivity|].
  cbn [should_block threshold].
  destruct (age1 <=? 12) eqn:A1; destruct (age1 <=? 17) eqn:A2;
    destruct (age2 <=? 12) eqn:B1; destruct (age2 <=? 17) eqn:B2;
    cbn [threshold] in *; auto; lia.
Qed.

Lemma block_carries_to_younger_witness :
  exists r1,
    classify (steady_runtime 0.60%float) "text" (AgeInt 9) fresh_cpu_world
    = (Returned r1,
       snd (classify (steady_runtime 0.60%float) "text" (AgeInt 40) fresh_cpu_world)) /\
    score r1 = 0.60%float /\
    should_block r1 = true.
Proof.
  apply (block_carries_to_younger (steady_runtime 0.60%float) "text" fresh_cpu_world
           (snd (classify (steady_runtime 0.60%float) "text" (AgeInt 40)
                   fresh_cpu_world))
           9 40
           (mkClassification 0.60%float true (mkAgePolicy 200 0.55%float true)));
    [lia | reflexivity | reflexivity].
Defined.

(** ** Construction *)

Lemma place_on_selected_engine (rt : runtime) (h : host) (w : world) :
  let r := place_on_selected rt h w in
  max_length (self (snd r)) = max_length (self w) /\
  (fst r = Returned tt -> device (self w) = dml -> _dml_device (self (snd r)) = true).
Proof.
  cbn zeta.
  unfold place_on_selected, bind, get_device, set_dml_device, move_model, ask,
    lift, ret, raise.
  cbn [self past device fst snd max_length].
  destruct (device_eqb (device (self w)) dml) eqn:Ed.
  - destruct (directml_imported h); [|split; [reflexivity | discriminate]].
    destruct (directml_device h); [|split; [reflexivity | discriminate]].
    split; reflexivity.
  - split; [reflexivity|]. intros _ Hd. rewrite Hd in Ed. discriminate Ed.
Qed.

Lemma place_on_cpu_if_recognized_max_length (rt : runtime) (msg : string) (w : world) :
  max_length (self (snd (place_on_cpu_if_recognized rt msg w))) = max_length (self w).
Proof.
  unfold place_on_cpu_if_recognized, bind, get_device, set_device,
    set_dml_device, move_model, ask, print, emit, ret, raise.
  cbn [self past device fst snd max_length].
  destruct (is_hip (PyStr.lower msg)); [reflexivity|].
  destruct (is_cuda_family (device (self w)) (PyStr.lower msg)); [reflexivity|].
  destruct (is_directml (device (self w)) (PyStr.lower msg)); reflexivity.
Qed.

Lemma place_model_engine (rt : runtime) (h : host) (w : world) :
  let r := place_model rt h w in
  max_length (self (snd r)) = max_length (self w) /\
  (fst r = Returned tt -> dml_handle_ready (self (snd r))).
Proof.
  cbn zeta. unfold place_model, try_except_RuntimeError, dml_handle_ready.
  pose proof (place_on_selected_engine rt h w) as [Hlen Hdml].
  pose proof (place_on_selected_device rt h w) as Hdev.
  destruct (place_on_selected rt h w) as [[[]|e] w1]; cbn [fst snd] in *.
  - split; [exact Hlen|]. intros _ Hd. apply Hdml; [reflexivity | congruence].
  - destruct e as [msg| | | | | |]; cbn [fst snd];
      try (split; [exact Hlen | discriminate]).
    rewrite place_on_cpu_if_recognized_max_length. split; [exact Hlen|].
    destruct (place_on_cpu_if_recognized_device rt msg w1) as [[_ Hcpu] | [_ Hraise]].
    + intros _ Hd. rewrite Hcpu in Hd. discriminate Hd.
    + cbn zeta in Hraise. rewrite Hraise. discriminate.
Qed.

Lemma effective_max_length_range (a c : attribute) :
  8 <= effective_max_length a c <= 4096.
Proof.
  pose proof (tokenizer_max_len_range a) as Hr. unfold effective_max_length.
  destruct c as [|z|]; try lia. destruct (2 <? z) eqn:E; lia.
Qed.

(** X13: an engine that [__init__] returns was built from a directory
    that exists, and for its whole life, after any sequence of calls, its
    maximum sequence length lies in [8, 4096] and it holds a DirectML
    handle whenever its device is "dml". *)
Theorem constructed_engine_well_formed (rt : runtime) (ckpt : checkpoint) (h : host)
    (device_arg : option string) (e : engine) (hist : history) :
  __init__ rt ckpt h device_arg = (Returned e, hist) ->
  path_exists ckpt = true /\
  forall w', calls rt (mkWorld e hist) w' ->
             8 <= max_length (self w') <= 4096 /\ dml_handle_ready (self w').
Proof.
  unfold __init__.
  destruct (path_exists ckpt); [|discriminate]. cbn [negb].
  destruct (_load_tokenizer ckpt) as [[a|?] printed]; [|discriminate].
  destruct (model_load ckpt) as [c|?]; [|discriminate].
  destruct (_select_device h device_arg) as [[d|?] printed']; [|discriminate].
  set (w0 := mkWorld _ _).
  pose proof (place_model_engine rt h w0) as [Hlen Hdml].
  destruct (place_model rt h w0) as [[[]|?] w1]; [|discriminate].
  cbn [fst snd] in *. intros [= <- <-]. split; [reflexivity|].
  intros w' Hcalls.
  destruct (calls_invariants rt _ _ Hcalls) as [Hlen' Hdml'].
  cbn [self] in *. split.
  - rewrite Hlen', Hlen. apply effective_max_length_range.
  - apply Hdml', Hdml. reflexivity.
Qed.

Lemma constructed_engine_well_formed_witness :
  path_exists plain_checkpoint = true /\
  forall w',
    calls (failing_cuda_runtime 0.75%float)
          (mkWorld (mkEngine 512 dml true) [ModelTo dml]) w' ->
    8 <= max_length (self w') <= 4096 /\ dml_handle_ready (self w').
Proof.
  apply (constructed_engine_well_formed (failing_cuda_runtime 0.75%float)
           plain_checkpoint flaky_cuda_directml_host (Some "dml")).
  reflexivity.
Defined.

(** ** The HTTP layer *)

Lemma lstrip_empty (s : string) :
  String.eqb (PyStr.lstrip s) EmptyString = all_space s.
Proof.
  induction s as [|c r IH]; [reflexivity|].
  simpl. destruct (PyStr.is_space c); [exact IH | reflexivity].
Qed.

Lemma all_space_lstrip (s : string) : all_space (PyStr.lstrip s) = all_space s.
Proof.
  induction s as [|c r IH]; [reflexivity|].
  simpl. destruct (PyStr.is_space c) eqn:E; [exact IH|].
  simpl. rewrite E. reflexivity.
Qed.

Lemma all_space_rev_onto (s acc : string) :
  all_space (PyStr.rev_onto s acc) = (all_space s && all_space acc)%bool.
Proof.
  revert acc. induction s as [|c r IH]; intros acc; [reflexivity|].
  simpl. rewrite IH. simpl.
  destruct (PyStr.is_space c), (all_space r), (all_space acc); reflexivity.
Qed.

Lemma rev_onto_empty (s acc : string) :
  String.eqb (PyStr.rev_onto s acc) EmptyString
  = (String.eqb s EmptyString && String.eqb acc EmptyString)%bool.
Proof.
  revert acc. induction s as [|c r IH]; intros acc; [reflexivity|].
  simpl. rewrite IH. simpl. apply andb_false_r.
Qed.

Lemma strip_empty (s : string) :
  String.eqb (PyStr.strip s) EmptyString = all_space s.
Proof.
  unfold PyStr.strip, PyStr.rev.
  rewrite rev_onto_empty, andb_true_r, lstrip_empty, all_space_rev_onto,
    andb_true_r.
  apply all_space_lstrip.
Qed.

(** X14: the [text] validator of the request model turns down exactly
    the texts made of whitespace only (the empty text among them), and
    hands every other text on as it came, whitespace at its ends
    included. *)
Theorem validate_text_rejects_blank (value : string) :
  ApiServer._validate_text value
  = if all_space value then Raised (ValueError "text must not be empty")
    else Returned value.
Proof.
  unfold ApiServer._validate_text. rewrite strip_empty.
  destruct value as [|c r]; [reflexivity|].
  cbn [String.eqb orb]. reflexivity.
Qed.

Lemma validated_request (text : string) (age : option Z)
    (request : ApiServer.PredictRequest) :
  ApiServer.validate text age = Returned request ->
  request = ApiServer.mkPredictRequest text age /\
  all_space text = false /\
  ApiServer.age_in_bounds age = true.
Proof.
  unfold ApiServer.validate, ApiServer._validate_text. rewrite strip_empty.
  destruct (String.eqb text EmptyString || all_space text)%bool eqn:E;
    [discriminate|].
  destruct (ApiServer.age_in_bounds age); [|discriminate].
  intros [= <-]. apply orb_false_elim in E. destruct E as [_ E].
  repeat split. exact E.
Qed.

Lemma resolve_policy_bucket (a : Z) :
  0 <= a <= 130 ->
  exists policy,
    resolve_policy (AgeInt a) = Returned policy /\ a <= max_age policy.
Proof.
  intros Ha. rewrite resolve_policy_ranges. eexists. split; [reflexivity|].
  destruct (a <=? 12) eqn:E1; [cbn; lia|].
  destruct (a <=? 17) eqn:E2; cbn; lia.
Qed.

(** X15: for a request that passed validation and a loaded model, the
    [/predict] handler never lets an exception out.  It answers with the
    record of [classify], whose policy is the strictest one when no age
    was sent and otherwise a bucket that reaches the age sent; or with an
    [HTTPException] of status 500 that carries the exception
    [_score_text] raised, the resolver never being the cause.  In both
    cases the engine is left as the inference left it. *)
Theorem predict_validated_request (rt : runtime) (text : string) (age : option Z)
    (request : ApiServer.PredictRequest) (w : world) :
  ApiServer.validate text age = Returned request ->
  let w' := snd (_score_text rt text w) in
  (exists result,
     ApiServer.predict rt (Some w) request
     = (ApiServer.PredictResponse result, Some w') /\
     should_block result = (threshold (age_policy result) <=? score result)%float /\
     match age with
     | None => age_policy result = mkAgePolicy 12 0.25%float false
     | Some a => a <= max_age (age_policy result)
     end) \/
  (exists exc,
     ApiServer.predict rt (Some w) request
     = (ApiServer.HTTPException 500 (ApiServer.StrOf exc), Some w') /\
     _score_text rt text w = (Raised exc, w')).
Proof.
  intros Hvalid. destruct (validated_request _ _ _ Hvalid) as (-> & _ & Hage).
  cbn zeta. unfold ApiServer.predict. cbn [ApiServer.text ApiServer.age].
  rewrite classify_unfold.
  destruct (_score_text rt text w) as [[s|exc] w1]; cbn [snd].
  - left. destruct age as [a|]; cbn [ApiServer.age_argument].
    + unfold ApiServer.age_in_bounds in Hage.
      apply andb_prop in Hage. destruct Hage as [H0 H130].
      destruct (resolve_policy_bucket a ltac:(lia)) as (policy & -> & Hreach).
      eexists. split; [reflexivity|]. split; [reflexivity | exact Hreach].
    + eexists. split; [reflexivity|]. split; reflexivity.
  - right. exists exc. split; reflexivity.
Qed.

Lemma predict_validated_request_witness :
  (exists result,
     ApiServer.predict (steady_runtime 0.30%float) (Some fresh_cpu_world)
                       (ApiServer.mkPredictRequest " some text " (Some 16))
     = (ApiServer.PredictResponse result,
        Some (snd (_score_text (steady_runtime 0.30%float) " some text "
                     fresh_cpu_world))) /\
     should_block result = (threshold (age_policy result) <=? score result)%float /\
     16 <= max_age (age_policy result)) \/
  (exists exc,
     ApiServer.predict (steady_runtime 0.30%float) (Some fresh_cpu_world)
                       (ApiServer.mkPredictRequest " some text " (Some 16))
     = (ApiServer.HTTPException 500 (ApiServer.StrOf exc),
        Some (snd (_score_text (steady_runtime 0.30%float) " some text "
                     fresh_cpu_world))) /\
     _score_text (steady_runtime 0.30%float) " some text " fresh_cpu_world
     = (Raised exc,
        snd (_score_text (steady_runtime 0.30%float) " some text " fresh_cpu_world))).
Proof.
  apply (predict_validated_request (steady_runtime 0.30%float) " some text " (Some 16)
           (ApiServer.mkPredictRequest " some text " (Some 16)) fresh_cpu_world).
  reflexivity.
Defined.

(** ** The scoring loop *)

Section ScoringFacts.

Import SamplePredictions.

Variable rt : runtime.
Variable words : wording.
Variable logging : bool.
Variable age : Z.
Variable policy : AgePolicy.
Hypothesis policy_resolved : resolve_policy (AgeInt age) = Returned policy.

Lemma emit_line_tally (message : string) (t t' : tally) (w w' : world) :
  emit_line logging message t w = (Returned t', w') ->
  rows t' = rows t /\ correct t' = correct t /\
  total_with_labels t' = total_with_labels t.
Proof.
  unfold emit_line, bind, print, emit, ret. intros [= <- _]. repeat split.
Qed.

Lemma score_sample_adds_row (idx : Z) (s : sample) (t t' : tally) (w w' : world) :
  score_sample rt words logging age policy idx s t w = (Returned t', w') ->
  exists r,
    rows t' = (rows t ++ [r])%list /\
    row_index r = idx /\ row_text r = text s /\ row_expected r = expected s /\
    row_consistent policy age r /\
    total_with_labels t'
    = total_with_labels t + (if is_labelled (expected s) then 1 else 0) /\
    correct t' = correct t + count_correct [r].
Proof.
  unfold score_sample, bind, emit_line, print, emit, ret.
  rewrite classify_unfold.
  destruct (_score_text rt (text s) w) as [[sc|e] w1]; [|discriminate].
  rewrite policy_resolved. cbn [score should_block rows correct total_with_labels].
  intros [= <- _]. eexists. split; [reflexivity|].
  cbn [rows correct total_with_labels row_index row_text row_expected].
  repeat split.
  - cbn. destruct (is_labelled (expected s)); reflexivity.
  - destruct (is_labelled (expected s)); lia.
  - unfold count_correct. cbn.
    destruct (is_labelled (expected s)); cbn;
      [destruct (label_eq (expected s) (threshold policy <=? sc)%float); cbn|]; lia.
Qed.

Lemma count_correct_app (l1 l2 : list row) :
  count_correct (l1 ++ l2) = count_correct l1 + count_correct l2.
Proof. unfold count_correct. rewrite filter_app, length_app. lia. Qed.

Lemma count_correct_le_labelled (r : row) (s : sample) :
  row_expected r = expected s ->
  row_consistent policy age r ->
  0 <= count_correct [r] <= (if is_labelled (expected s) then 1 else 0).
Proof.
  intros He (_ & _ & _ & Hc). unfold count_correct. cbn.
  rewrite Hc, He. destruct (is_labelled (expected s)); cbn; [|lia].
  destruct (label_eq (expected s) (row_should_block r)); cbn; lia.
Qed.

Lemma score_samples_rows (sentences : list sample) :
  forall (idx : Z) (t t' : tally) (w w' : world),
    score_samples rt words logging age policy idx sentences t w = (Returned t', w') ->
    exists new,
      rows t' = (rows t ++ new)%list /\
      List.map row_index new = count_from idx (List.length sentences) /\
      List.map row_text new = List.map text sentences /\
      List.map row_expected new = List.map expected sentences /\
      Forall (row_consistent policy age) new /\
      total_with_labels t' = total_with_labels t + count_labelled sentences /\
      correct t' = correct t + count_correct new /\
      0 <= count_correct new <= count_labelled sentences.
Proof.
  induction sentences as [|s rest IH]; intros idx t t' w w'.
  - cbn. unfold ret. intros [= <- _]. exists [].
    rewrite app_nil_r. unfold count_labelled, count_correct. cbn.
    repeat split; try constructor; lia.
  - cbn [score_samples]. unfold bind at 1.
    destruct (score_sample rt words logging age policy idx s t w)
      as [[t1|e] w1] eqn:Hstep; [|discriminate].
    intros Hrest.
    destruct (score_sample_adds_row _ _ _ _ _ _ Hstep)
      as (r & Hrows & Hidx & Htext & Hexp & Hok & Htotal & Hcorrect).
    destruct (IH _ _ _ _ _ Hrest)
      as (new & Hrows' & Hidx' & Htext' & Hexp' & Hok' & Htotal' & Hcorrect' & Hle).
    pose proof (count_correct_le_labelled r s Hexp Hok) as Hle1.
    exists (r :: new). rewrite Hrows', Hrows, <- app_assoc.
    change (r :: new) with ([r] ++ new)%list.
    rewrite count_correct_app.
    assert (Hlab : count_labelled (s :: rest)
                   = (if is_labelled (expected s) then 1 else 0) + count_labelled rest).
    { unfold count_labelled. cbn. destruct (is_labelled (expected s)); cbn [List.length]; lia. }
    repeat split; cbn [List.map List.length count_from app]; try congruence; try lia.
    constructor; assumption.
Qed.

Lemma score_all_rows (sentences : list sample) (t : tally) (w w' : world) :
  score_all rt words logging age sentences w = (Returned t, w') ->
  List.map row_index (rows t) = count_from 1 (List.length sentences) /\
  List.map row_text (rows t) = List.map text sentences /\
  List.map row_expected (rows t) = List.map expected sentences /\
  Forall (row_consistent policy age) (rows t) /\
  total_with_labels t = count_labelled sentences /\
  correct t = count_correct (rows t) /\
  0 <= correct t <= total_with_labels t.
Proof.
  unfold score_all, bind, lift. rewrite policy_resolved.
  destruct (emit_line logging (policy_line words policy) (mkTally [] 0 0 []) w)
    as [[t0|e] w0] eqn:H0; [|discriminate].
  apply emit_line_tally in H0. cbn in H0. destruct H0 as (Hr0 & Hc0 & Ht0).
  destruct (score_samples rt words logging age policy 1 sentences t0 w0)
    as [[t1|e] w1] eqn:H1; [|discriminate].
  destruct (score_samples_rows _ _ _ _ _ _ H1)
    as (new & Hrows & Hidx & Htext & Hexp & Hok & Htotal & Hcorrect & Hle).
  rewrite Hr0 in Hrows. cbn in Hrows. rewrite Hc0 in Hcorrect. rewrite Ht0 in Htotal.
  assert (Hfinal : rows t = rows t1 /\ correct t = correct t1 /\
                   total_with_labels t = total_with_labels t1 ->
                   List.map row_index (rows t) = count_from 1 (List.length sentences) /\
                   List.map row_text (rows t) = List.map text sentences /\
                   List.map row_expected (rows t) = List.map expected sentences /\
                   Forall (row_consistent policy age) (rows t) /\
                   total_with_labels t = count_labelled sentences /\
                   correct t = count_correct (rows t) /\
                   0 <= correct t <= total_with_labels t).
  { intros (-> & -> & ->). rewrite Hrows. repeat split; try assumption; lia. }
  destruct (total_with_labels t1 =? 0).
  - unfold ret. intros [= <- _]. apply Hfinal. repeat split.
  - intros H2. apply emit_line_tally in H2. apply Hfinal. exact H2.
Qed.

End ScoringFacts.

Lemma count_from_length (start : Z) (n : nat) : List.length (count_from start n) = n.
Proof. revert start. induction n as [|n IH]; intros start; cbn; [|rewrite IH]; reflexivity. Qed.

(** X16: when the scoring loop of [main] runs to its end, [rows] has one
    row per sentence, in the order of the sentences, numbered from 1, each
    with the text and the label of its sentence; and in every row the
    columns agree: the threshold is that of the policy resolved for the
    age of the run, [should_block] is [score >= threshold], and [correct]
    is empty exactly for an unlabelled sentence and otherwise tells
    whether the label equals [should_block]. *)
Theorem scoring_rows_mirror_sentences (rt : runtime)
    (words : SamplePredictions.wording) (logging : bool) (age : Z)
    (sentences : list SamplePredictions.sample) (t : SamplePredictions.tally)
    (w w' : world) :
  SamplePredictions.score_all rt words logging age sentences w = (Returned t, w') ->
  List.length (SamplePredictions.rows t) = List.length sentences /\
  List.map SamplePredictions.row_index (SamplePredictions.rows t)
  = count_from 1 (List.length sentences) /\
  List.map SamplePredictions.row_text (SamplePredictions.rows t)
  = List.map SamplePredictions.text sentences /\
  List.map SamplePredictions.row_expected (SamplePredictions.rows t)
  = List.map SamplePredictions.expected sentences /\
  exists policy,
    resolve_policy (AgeInt age) = Returned policy /\
    Forall (row_consistent policy age) (SamplePredictions.rows t).
Proof.
  intros Hrun.
  destruct (resolve_policy (AgeInt age)) as [policy|e] eqn:Hpolicy.
  2:{ unfold SamplePredictions.score_all, bind, lift in Hrun.
      rewrite Hpolicy in Hrun. discriminate Hrun. }
  destruct (score_all_rows rt words logging age policy Hpolicy sentences t w w' Hrun)
    as (Hidx & Htext & Hexp & Hok & _).
  split; [|repeat split; try assumption; exists policy; split; [reflexivity | exact Hok]].
  rewrite <- (length_map SamplePredictions.row_index), Hidx.
  apply count_from_length.
Qed.

Lemma scoring_rows_mirror_sentences_witness :
  List.map SamplePredictions.row_index (SamplePredictions.rows two_samples_tally)
  = [1; 2] /\
  List.map SamplePredictions.row_text (SamplePredictions.rows two_samples_tally)
  = ["first"; "second"].
Proof.
  destruct (scoring_rows_mirror_sentences (steady_runtime 0.30%float) terse_wording
              true 16 two_samples two_samples_tally fresh_cpu_world
              two_samples_world)
    as (_ & Hidx & Htext & _).
  - vm_compute. reflexivity.
  - split; [exact Hidx | exact Htext].
Defined.

(** X17: when the scoring loop of [main] runs to its end, its counters
    are exact: [total_with_labels] is the number of sentences that carry
    a label, [correct] is the number of rows marked correct, and
    [0 <= correct <= total_with_labels <= len(sentences)]. *)
Theorem scoring_counters_exact (rt : runtime)
    (words : SamplePredictions.wording) (logging : bool) (age : Z)
    (sentences : list SamplePredictions.sample) (t : SamplePredictions.tally)
    (w w' : world) :
  SamplePredictions.score_all rt words logging age sentences w = (Returned t, w') ->
  SamplePredictions.total_with_labels t = count_labelled sentences /\
  SamplePredictions.correct t = count_correct (SamplePredictions.rows t) /\
  0 <= SamplePredictions.correct t <= SamplePredictions.total_with_labels t /\
  SamplePredictions.total_with_labels t <= Z.of_nat (List.length sentences).
Proof.
  intros Hrun.
  destruct (resolve_policy (AgeInt age)) as [policy|e] eqn:Hpolicy.
  2:{ unfold SamplePredictions.score_all, bind, lift in Hrun.
      rewrite Hpolicy in Hrun. discriminate Hrun. }
  destruct (score_all_rows rt words logging age policy Hpolicy sentences t w w' Hrun)
    as (_ & _ & _ & _ & Htotal & Hcorrect & Hle).
  repeat split; try assumption; try lia.
  rewrite Htotal. unfold count_labelled. apply inj_le, filter_length_le.
Qed.

Lemma scoring_counters_exact_witness :
  SamplePredictions.total_with_labels two_samples_tally = count_labelled two_samples /\
  SamplePredictions.correct two_samples_tally
  = count_correct (SamplePredictions.rows two_samples_tally).
Proof.
  destruct (scoring_counters_exact (steady_runtime 0.30%float) terse_wording
              true 16 two_samples two_samples_tally fresh_cpu_world
              two_samples_world)
    as (Htotal & Hcorrect & _).
  - vm_compute. reflexivity.
  - split; [exact Htotal | exact Hcorrect].
Defined.

(** ** Failure recovery during construction *)

Lemma place_on_selected_plain (rt : runtime) (h : host) (w : world) :
  device (self w) <> dml ->
  place_on_selected rt h w
  = (model_to rt (past w) (device (self w)),
     mkWorld (self w) (ModelTo (device (self w)) :: past w)).
Proof.
  intros Hd. unfold place_on_selected, bind, get_device, move_model, ask.
  destruct (device (self w)); try reflexivity. contradiction Hd. reflexivity.
Qed.

Lemma place_on_cpu_if_recognized_result (rt : runtime) (msg : string) (w : world) :
  (forall hist, model_to rt hist cpu = Returned tt) ->
  recognized (device (self w)) msg = true ->
  fst (place_on_cpu_if_recognized rt msg w) = Returned tt /\
  device (self (snd (place_on_cpu_if_recognized rt msg w))) = cpu /\
  _dml_device (self (snd (place_on_cpu_if_recognized rt msg w))) = _dml_device (self w)
  \/ fst (place_on_cpu_if_recognized rt msg w) = Returned tt /\
     device (self (snd (place_on_cpu_if_recognized rt msg w))) = cpu /\
     _dml_device (self (snd (place_on_cpu_if_recognized rt msg w))) = false.
Proof.
  intros Hcpu. unfold recognized, place_on_cpu_if_recognized, bind, get_device,
    set_device, set_dml_device, move_model, ask, print, emit, ret, raise.
  cbn [self past device fst snd _dml_device].
  destruct (is_hip (PyStr.lower msg));
    [intros _; left; rewrite Hcpu; repeat split|].
  destruct (is_cuda_family (device (self w)) (PyStr.lower msg));
    [intros _; left; rewrite Hcpu; repeat split|].
  destruct (is_directml (device (self w)) (PyStr.lower msg));
    [intros _; right; rewrite Hcpu; repeat split | discriminate].
Qed.

(** X18: construction recovers from a failed placement as inference
    does from a failed forward pass.  When [model.to] on the selected
    device (other than "dml") raises a [RuntimeError] of a recognized
    signature and the model can be put on the CPU, [__init__] returns an
    engine on "cpu" with the sequence length computed from the
    checkpoint and no DirectML handle; when the signature is not
    recognized, [__init__] raises that same error. *)
Theorem init_recovers_placement (rt : runtime) (ckpt : checkpoint) (h : host)
    (device_arg : option string) (a c : attribute) (d : device_name)
    (printed1 printed2 : list string) (msg : string) :
  path_exists ckpt = true ->
  _load_tokenizer ckpt = (Returned a, printed1) ->
  model_load ckpt = Returned c ->
  _select_device h device_arg = (Returned d, printed2) ->
  d <> dml ->
  model_to rt (List.rev (List.map Print printed2) ++ List.rev (List.map Print printed1))%list d
  = Raised (RuntimeError msg) ->
  (recognized d msg = true ->
   (forall hist, model_to rt hist cpu = Returned tt) ->
   fst (__init__ rt ckpt h device_arg)
   = Returned (mkEngine (effective_max_length a c) cpu false)) /\
  (recognized d msg = false ->
   fst (__init__ rt ckpt h device_arg) = Raised (RuntimeError msg)).
Proof.
  intros Hpath Htok Hmodel Hsel Hd Hmove.
  unfold __init__. rewrite Hpath, Htok, Hmodel, Hsel. cbn [negb].
  set (w0 := mkWorld (mkEngine (effective_max_length a c) d false) _).
  unfold place_model, try_except_RuntimeError.
  rewrite (place_on_selected_plain rt h w0 Hd). cbn [self past device] in *.
  subst w0. cbn [self past device]. rewrite Hmove.
  set (w1 := mkWorld _ _).
  split.
  - intros Hrec Hcpu.
    pose proof (place_on_cpu_if_recognized_max_length rt msg w1) as Hlen.
    destruct (place_on_cpu_if_recognized_result rt msg w1 Hcpu Hrec)
      as [(Hr & Hdev & Hdml) | (Hr & Hdev & Hdml)];
      destruct (place_on_cpu_if_recognized rt msg w1) as [[[]|e] [[len dev dmlh] hist]];
      cbn [fst snd self max_length device _dml_device] in *;
      try discriminate; subst; reflexivity.
  - intros Hrec.
    destruct (place_on_cpu_if_recognized_device rt msg w1) as [[Hrec' _] | [_ Hraise]].
    + subst w1. cbn [self device] in Hrec'. congruence.
    + cbn zeta in Hraise. rewrite Hraise. reflexivity.
Qed.

Lemma init_recovers_placement_witness :
  fst (__init__ unplaceable_cuda_runtime plain_checkpoint cuda_host (Some "cuda"))
  = Returned (mkEngine 512 cpu false).
Proof.
  apply (proj1 (init_recovers_placement unplaceable_cuda_runtime plain_checkpoint
                  cuda_host (Some "cuda") (IntAttr 512) (IntAttr 514) cuda [] []
                  "CUDA error: out of memory"
                  eq_refl eq_refl eq_refl eq_refl ltac:(discriminate) eq_refl));
    [reflexivity | intros hist; reflexivity].
Defined.

(** ** Reading sentences *)

Lemma append_associative (s t u : string) : (s ++ t) ++ u = s ++ (t ++ u).
Proof. induction s as [|c r IH]; cbn; [|rewrite IH]; reflexivity. Qed.

Lemma rev_onto_append (s acc : string) :
  PyStr.rev_onto s acc = PyStr.rev_onto s EmptyString ++ acc.
Proof.
  revert acc. induction s as [|c r IH]; intros acc; [reflexivity|].
  cbn. rewrite (IH (String c acc)), (IH (String c EmptyString)).
  rewrite append_associative. reflexivity.
Qed.

Lemma append_empty (s : string) : s ++ EmptyString = s.
Proof. induction s as [|c r IH]; cbn; [|rewrite IH]; reflexivity. Qed.

Lemma rev_onto_rev_onto (s acc t : string) :
  PyStr.rev_onto (PyStr.rev_onto s acc) t = PyStr.rev_onto acc (s ++ t).
Proof.
  revert acc t. induction s as [|c r IH]; intros acc t; [reflexivity|].
  cbn. rewrite IH. reflexivity.
Qed.

Lemma rev_involutive (s : string) : PyStr.rev (PyStr.rev s) = s.
Proof. unfold PyStr.rev. rewrite rev_onto_rev_onto. cbn. apply append_empty. Qed.

Lemma rev_onto_of_append (s t acc : string) :
  PyStr.rev_onto (s ++ t) acc = PyStr.rev_onto t (PyStr.rev_onto s acc).
Proof.
  revert acc. induction s as [|c r IH]; intros acc; [reflexivity|].
  cbn. apply IH.
Qed.

Lemma rev_snoc (s : string) (c : ascii) :
  PyStr.rev (s ++ String c EmptyString) = String c (PyStr.rev s).
Proof. unfold PyStr.rev. rewrite rev_onto_of_append. reflexivity. Qed.

Lemma lstrip_starts_clean (s : string) : starts_clean (PyStr.lstrip s).
Proof.
  induction s as [|c r IH]; cbn; [exact I|].
  destruct (PyStr.is_space c) eqn:E; [exact IH | exact E].
Qed.

Lemma lstrip_clean (s : string) : starts_clean s -> PyStr.lstrip s = s.
Proof. destruct s as [|c r]; cbn; [reflexivity|]. intros ->. reflexivity. Qed.

Lemma lstrip_keeps_last (s : string) (c : ascii) :
  PyStr.is_space c = false ->
  exists u, PyStr.lstrip (s ++ String c EmptyString) = u ++ String c EmptyString.
Proof.
  intros Hc. induction s as [|d r IH]; cbn.
  - rewrite Hc. exists EmptyString. reflexivity.
  - destruct (PyStr.is_space d); [exact IH|].
    exists (String d r). reflexivity.
Qed.

Lemma strip_starts_clean (s : string) : starts_clean (PyStr.strip s).
Proof.
  unfold PyStr.strip.
  pose proof (lstrip_starts_clean s) as Ha.
  destruct (PyStr.lstrip s) as [|c a]; [exact I|].
  cbn in Ha. unfold PyStr.rev at 2. cbn [PyStr.rev_onto].
  rewrite rev_onto_append. fold (PyStr.rev a).
  destruct (lstrip_keeps_last (PyStr.rev a) c Ha) as (u & ->).
  rewrite rev_snoc. exact Ha.
Qed.

Lemma strip_idempotent (s : string) : PyStr.strip (PyStr.strip s) = PyStr.strip s.
Proof.
  pose proof (strip_starts_clean s) as Hc.
  unfold PyStr.strip at 1. rewrite (lstrip_clean _ Hc).
  unfold PyStr.strip. rewrite rev_involutive.
  rewrite (lstrip_clean _ (lstrip_starts_clean _)). reflexivity.
Qed.

Lemma all_space_strip (s : string) : all_space (PyStr.strip s) = all_space s.
Proof.
  unfold PyStr.strip, PyStr.rev.
  rewrite all_space_rev_onto, andb_true_r, all_space_lstrip, all_space_rev_onto,
    andb_true_r.
  apply all_space_lstrip.
Qed.

(** X19: from a file that is not JSON, [_read_sentences] returns, in
    file order, one unlabelled sentence per line that is not blank, with
    the whitespace at both ends of the line removed; so every text it
    returns is trimmed and has a character that is not whitespace, and
    the list is empty exactly when every line of the file is blank. *)
Theorem read_plain_sentences
    (default_sentences : outcome (list SamplePredictions.sample))
    (f : SampleInput.input_file) :
  PyStr.mem (PyStr.lower (SampleInput.suffix f)) [".jsonl"; ".json"] = false ->
  exists sentences,
    SampleInput._read_sentences default_sentences (Some f) = Returned sentences /\
    List.map SamplePredictions.text sentences
    = List.map PyStr.strip
        (List.filter (fun line => negb (all_space line)) (SampleInput.file_lines f)) /\
    Forall (fun s => SamplePredictions.expected s = SamplePredictions.NoLabel /\
                     PyStr.strip (SamplePredictions.text s) = SamplePredictions.text s /\
                     all_space (SamplePredictions.text s) = false) sentences /\
    (sentences = [] <->
     Forall (fun line => all_space line = true) (SampleInput.file_lines f)).
Proof.
  intros Hsuffix. unfold SampleInput._read_sentences. rewrite Hsuffix.
  eexists. split; [reflexivity|].
  unfold SampleInput.read_plain_lines.
  induction (SampleInput.file_lines f) as [|line rest (IHtext & IHall & IHempty)].
  - cbn. repeat split; auto.
  - cbn [List.filter]. rewrite strip_empty.
    destruct (all_space line) eqn:Hline; cbn [negb List.map].
    + split; [exact IHtext|]. split; [exact IHall|].
      rewrite IHempty. split.
      * intros H. constructor; assumption.
      * intros H. inversion H; assumption.
    + split; [cbn; rewrite IHtext; reflexivity|]. split.
      * constructor; [|exact IHall].
        cbn [SamplePredictions.text SamplePredictions.expected].
        rewrite strip_idempotent, all_space_strip. repeat split. exact Hline.
      * split; [discriminate|]. intros H. inversion H; congruence.
Qed.

Lemma read_plain_sentences_witness :
  exists sentences,
    SampleInput._read_sentences (Raised (OtherError "SystemExit")) (Some notes_file)
    = Returned sentences /\
    List.map SamplePredictions.text sentences = ["first sentence"; "second"].
Proof.
  destruct (read_plain_sentences (Raised (OtherError "SystemExit")) notes_file)
    as (sentences & Hread & Htext & _).
  - reflexivity.
  - exists sentences. split; [exact Hread | exact Htext].
Defined.
